(** * topik: pipeline state manager and in-memory artifact store

    A shallow embedding of the Python sources

      - [topik/fileio/project.py]       ([_get_parameters_string], [TopikProject])
      - [topik/fileio/out_memory.py]    ([GreedyDict], [InMemoryOutput])
      - [topik/vectorizers/_registry.py] ([VectorizerRegistry], [vectorize])

    Python values are dynamically typed, so every operation that can raise
    returns a [Result]; objects with attributes are attribute dictionaries
    ([gmap string _]); a Python dictionary that is iterated is an association
    list in its iteration order, whatever order the hash table gives it;
    one-shot iterators live in a heap and are referred to by address.  The
    builtins [eval] and [str.format] are modelled on a fragment, and are a
    parameter (an [Interpreter]) beyond it. *)

From Stdlib Require Import ZArith String Ascii List Bool Lia Permutation.
From Stdlib Require Import DecimalString DecimalFacts DecimalPos DecimalN DecimalZ.
From Stdlib Require Import OrderedTypeEx.
From stdpp Require Import base gmap strings sorting.

Local Open Scope Z_scope.
Set Warnings "-register-all".

(* ===================================================================== *)
(** ** Python values, exceptions, [str] and [repr] *)
(* ===================================================================== *)

Module Py.

(** Plain data, the values a document or a keyword argument is made of.
    [VInt] is an [int]; Python 2 has a second type for the integers beyond
    the machine word, [long], whose [repr] carries a suffix, and which is not
    modelled.  [VStr] is a byte string ([str]).
    [VFloat negative whole fraction] is the float that [repr] and [str]
    print as [whole.fraction], after a minus sign when [negative]; the floats
    that have such a print are those with [float_ok whole fraction], and no
    other float is modelled. *)
Inductive PyVal : Type :=
| VNone
| VBool (b : bool)
| VInt (z : Z)
| VFloat (negative : bool) (whole : N) (fraction : Decimal.uint)
| VStr (s : string)
| VList (xs : list PyVal)
| VTuple (xs : list PyVal)
| VDict (kvs : list (string * PyVal)).

(** The exceptions the modelled code can raise.  [Unsupported] is not a
    Python exception: it marks a use of a builtin outside the fragment that
    is modelled.  Where [str.format] or [eval] answer it, the generator asks
    the [Interpreter] instead. *)
Inductive Exn : Type :=
| AttributeError | KeyError | ValueError | TypeError
| NameError | SyntaxError | IndexError | DuplicateNameError | Unsupported.

Inductive Result (A : Type) : Type :=
| Ok (a : A)
| Raise (e : Exn).
Arguments Ok {A} a.
Arguments Raise {A} e.

(** Sequencing: an exception raised by the first step ends the computation. *)
#[export] Instance result_bind : MBind Result := fun A B k r =>
  match r with
  | Ok a => k a
  | Raise e => Raise e
  end.
#[export] Instance result_ret : MRet Result := fun A a => Ok a.

(** Whether the last digit of [d] is a zero. *)
Fixpoint ends_in_zero (d : Decimal.uint) : bool :=
  match d with
  | Decimal.Nil => false
  | Decimal.D0 Decimal.Nil => true
  | Decimal.D0 r | Decimal.D1 r | Decimal.D2 r | Decimal.D3 r | Decimal.D4 r
  | Decimal.D5 r | Decimal.D6 r | Decimal.D7 r | Decimal.D8 r | Decimal.D9 r => ends_in_zero r
  end.

(** The floats that are modelled: [whole.fraction] is the print of a float
    when the fraction has a digit and no zero at its end (but for [.0]), and
    the print is positional, which [repr] gives from [0.0001] on.  With at
    most twelve digits in all the print is also what [str] gives (Python 2.7
    keeps twelve significant digits there), and every such text is the
    shortest that reads back as the float nearest to it. *)
Definition float_ok (whole : N) (fraction : Decimal.uint) : bool :=
  (Decimal.uint_beq fraction (Decimal.D0 Decimal.Nil) || negb (ends_in_zero fraction))
  && negb (Decimal.uint_beq fraction Decimal.Nil)
  && (Decimal.nb_digits (N.to_uint whole) + Decimal.nb_digits fraction <=? 12)%nat
  && negb ((whole =? 0)%N
           && match fraction with
              | Decimal.D0 (Decimal.D0 (Decimal.D0 (Decimal.D0 _))) => true
              | _ => false
              end).

(** [bool(v)]: Python truthiness. *)
Definition truthy (v : PyVal) : bool :=
  match v with
  | VNone => false
  | VBool b => b
  | VInt z => negb (z =? 0)
  | VFloat _ whole fraction => negb ((whole =? 0)%N && (Z.of_uint fraction =? 0))
  | VStr s => negb (String.eqb s EmptyString)
  | VList xs | VTuple xs => match xs with [] => false | _ => true end
  | VDict kvs => match kvs with [] => false | _ => true end
  end.

(** [str(int)] *)
Definition decimal (z : Z) : string := NilZero.string_of_int (Z.to_int z).

Definition dquote : ascii := "034"%char.
Definition squote : ascii := "'"%char.
Definition backslash : ascii := "\"%char.

Fixpoint contains_char (c : ascii) (s : string) : bool :=
  match s with
  | EmptyString => false
  | String d rest => Ascii.eqb c d || contains_char c rest
  end.

Definition hex_digit (n : N) : ascii :=
  if (n <? 10)%N then ascii_of_N (48 + n) else ascii_of_N (87 + n).

(** One character of a string's [repr] inside quotes [q]. *)
Definition repr_char (q c : ascii) : string :=
  if Ascii.eqb c q || Ascii.eqb c backslash then String backslash (String c EmptyString)
  else if Ascii.eqb c "009" then String backslash "t"
  else if Ascii.eqb c "010" then String backslash "n"
  else if Ascii.eqb c "013" then String backslash "r"
  else if (N_of_ascii c <? 32)%N || (127 <=? N_of_ascii c)%N then
    String backslash (String "x" (String (hex_digit (N_of_ascii c / 16))
                                  (String (hex_digit (N_of_ascii c mod 16)) EmptyString)))
  else String c EmptyString.

Fixpoint repr_chars (q : ascii) (s : string) : string :=
  match s with
  | EmptyString => EmptyString
  | String c rest => repr_char q c +:+ repr_chars q rest
  end.

(** The quote [repr] chooses: double quotes only when the string holds a
    single quote and no double quote. *)
Definition repr_quote (s : string) : ascii :=
  if contains_char squote s && negb (contains_char dquote s) then dquote else squote.

(** [repr(s)] for a byte string. *)
Definition repr_str (s : string) : string :=
  let q := repr_quote s in
  String q (repr_chars q s +:+ String q EmptyString).

(** [", ".join(parts)] *)
Fixpoint join_comma (parts : list string) : string :=
  match parts with
  | [] => EmptyString
  | [p] => p
  | p :: rest => p +:+ ", " +:+ join_comma rest
  end.

(** [repr(x)] for a float. *)
Definition repr_float (negative : bool) (whole : N) (fraction : Decimal.uint) : string :=
  (if negative then "-" else EmptyString)
  +:+ NilEmpty.string_of_uint (N.to_uint whole) +:+ "." +:+ NilEmpty.string_of_uint fraction.

(** [repr(v)]; a dictionary is printed in its iteration order. *)
Fixpoint py_repr (v : PyVal) : string :=
  match v with
  | VNone => "None"
  | VBool true => "True"
  | VBool false => "False"
  | VInt z => decimal z
  | VFloat negative whole fraction => repr_float negative whole fraction
  | VStr s => repr_str s
  | VList xs => "[" +:+ join_comma (map py_repr xs) +:+ "]"
  | VTuple xs =>
      match xs with
      | [x] => "(" +:+ py_repr x +:+ ",)"
      | _ => "(" +:+ join_comma (map py_repr xs) +:+ ")"
      end
  | VDict kvs =>
      "{" +:+ join_comma (map (fun kv => repr_str (fst kv) +:+ ": " +:+ py_repr (snd kv)) kvs)
          +:+ "}"
  end.

(** [str(v)], which is what ['{}'.format(v)] prints: a string is printed as
    it is, everything else as its [repr]. *)
Definition py_str (v : PyVal) : string :=
  match v with
  | VStr s => s
  | _ => py_repr v
  end.

(** [d[key]] on the fields of a dictionary with string keys. *)
Fixpoint field_lookup (key : string) (kvs : list (string * PyVal)) : option PyVal :=
  match kvs with
  | [] => None
  | (k, v) :: rest => if String.eqb k key then Some v else field_lookup key rest
  end.

End Py.
Export Py.

(* ===================================================================== *)
(** ** [_get_parameters_string] and the stage fingerprints (project.py) *)
(* ===================================================================== *)

Module Fingerprint.

(** Keyword arguments: names paired with values, in insertion order. *)
Definition Kwargs : Type := list (string * PyVal).

(** ['{}={}_'.format(key, val)] *)
Definition format_item (kv : string * PyVal) : string :=
  fst kv +:+ "=" +:+ py_str (snd kv) +:+ "_".

(** [sorted(kwargs.items())]: the items are (key, value) tuples and the keys
    of a dictionary are distinct, so the tuple order is the order of the keys
    (byte-wise lexicographic on [str]). *)
Fixpoint insert_item (kv : string * PyVal) (sorted : Kwargs) : Kwargs :=
  match sorted with
  | [] => [kv]
  | kv' :: rest =>
      if String.leb (fst kv) (fst kv') then kv :: sorted
      else kv' :: insert_item kv rest
  end.

Definition sorted_items (kwargs : Kwargs) : Kwargs :=
  fold_right insert_item [] kwargs.

(** [''.join(parts)] *)
Fixpoint join_empty (parts : list string) : string :=
  match parts with
  | [] => EmptyString
  | p :: rest => p +:+ join_empty rest
  end.

(** [s[:-1]] *)
Fixpoint drop_last (s : string) : string :=
  match s with
  | EmptyString => EmptyString
  | String c EmptyString => EmptyString
  | String c rest => String c (drop_last rest)
  end.

Definition _get_parameters_string (kwargs : Kwargs) : string :=
  let id := join_empty (map format_item (sorted_items kwargs)) in
  drop_last id.

(** ["tk_{method}_{params}".format(method=method, params=...)] of [tokenize]. *)
Definition tokenize_parameter_string (method : string) (kwargs : Kwargs) : string :=
  "tk_" +:+ method +:+ "_" +:+ _get_parameters_string kwargs.

(** ["_".join(parts)] *)
Fixpoint join_underscore (parts : list string) : string :=
  match parts with
  | [] => EmptyString
  | [p] => p
  | p :: rest => p +:+ "_" +:+ join_underscore rest
  end.

(** ["_".join([prior, "xform", method, params])] of [transform]. *)
Definition transform_parameter_string (prior method : string) (kwargs : Kwargs) : string :=
  join_underscore [prior; "xform"; method; _get_parameters_string kwargs].

(** ["_".join([method, params])] of [vectorize] and [run_model]. *)
Definition stage_parameter_string (method : string) (kwargs : Kwargs) : string :=
  join_underscore [method; _get_parameters_string kwargs].

End Fingerprint.

(* ===================================================================== *)
(** ** The builtins [str.format] and [eval] *)
(* ===================================================================== *)

Module Builtins.

(** [template.format(args...)] for automatically numbered fields: each [{}]
    takes the next argument (already rendered by [str]), [{{] and [}}] are
    literal braces.  Named, indexed and formatted fields are outside the
    modelled fragment. *)
Fixpoint py_format (template : string) (args : list string) : Result string :=
  match template with
  | EmptyString => Ok EmptyString
  | String "{" (String "}" rest) =>
      match args with
      | a :: args' => r ← py_format rest args'; Ok (a +:+ r)
      | [] => Raise IndexError
      end
  | String "{" (String "{" rest) => r ← py_format rest args; Ok (String "{" r)
  | String "}" (String "}" rest) => r ← py_format rest args; Ok (String "}" r)
  | String "{" _ => Raise Unsupported
  | String "}" _ => Raise ValueError
  | String c rest => r ← py_format rest args; Ok (String c r)
  end.

(** *** Expressions

    The fragment of Python expressions that [eval] is modelled on: literals,
    list, tuple and dictionary displays, subscripts, calls of [int], unary
    minus and chained comparisons. *)

Inductive CmpOp : Type := CLe | CLt | CGe | CGt | CEq | CNe.

Inductive Expr : Type :=
| EConst (v : PyVal)
| EName (name : string)
| ENeg (e : Expr)
| EList (items : list Expr)
| ETuple (items : list Expr)
| EDict (items : list (Expr * Expr))
| ESubscript (e key : Expr)
| ECall (f : Expr) (args : list Expr)
| ECompare (first : Expr) (rest : list (CmpOp * Expr)).

(** *** Lexical helpers *)

Definition is_digit (c : ascii) : bool :=
  (48 <=? N_of_ascii c)%N && (N_of_ascii c <=? 57)%N.

Definition is_ident_start (c : ascii) : bool :=
  ((65 <=? N_of_ascii c)%N && (N_of_ascii c <=? 90)%N)
  || ((97 <=? N_of_ascii c)%N && (N_of_ascii c <=? 122)%N)
  || Ascii.eqb c "_".

Definition is_ident_char (c : ascii) : bool := is_ident_start c || is_digit c.

Definition is_space (c : ascii) : bool := Ascii.eqb c " " || Ascii.eqb c "009".

Fixpoint skip_ws (s : string) : string :=
  match s with
  | String c rest => if is_space c then skip_ws rest else s
  | EmptyString => s
  end.

(** The longest prefix of characters satisfying [p], and what follows it. *)
Fixpoint span (p : ascii -> bool) (s : string) : string * string :=
  match s with
  | String c rest =>
      if p c then let '(pre, post) := span p rest in (String c pre, post)
      else (EmptyString, s)
  | EmptyString => (EmptyString, EmptyString)
  end.

Definition hex_value (c : ascii) : option N :=
  let n := N_of_ascii c in
  if is_digit c then Some (n - 48)%N
  else if (97 <=? n)%N && (n <=? 102)%N then Some (n - 87)%N
  else if (65 <=? n)%N && (n <=? 70)%N then Some (n - 55)%N
  else None.

(** The body of a string literal opened by the quote [q], up to the closing
    quote.  The escapes are those [repr] writes. *)
Fixpoint lex_string (q : ascii) (s : string) : Result (string * string) :=
  match s with
  | EmptyString => Raise SyntaxError
  | String c rest =>
      if Ascii.eqb c q then Ok (EmptyString, rest)
      else if Ascii.eqb c backslash then
        match rest with
        | String "x" (String h1 (String h2 rest')) =>
            match hex_value h1, hex_value h2 with
            | Some a, Some b =>
                '(body, out) ← lex_string q rest';
                Ok (String (ascii_of_N (16 * a + b)) body, out)
            | _, _ => Raise ValueError
            end
        | String e rest' =>
            let unescaped :=
              if Ascii.eqb e backslash || Ascii.eqb e squote || Ascii.eqb e dquote then Some e
              else if Ascii.eqb e "t" then Some "009"%char
              else if Ascii.eqb e "n" then Some "010"%char
              else if Ascii.eqb e "r" then Some "013"%char
              else None in
            match unescaped with
            | Some d => '(body, out) ← lex_string q rest'; Ok (String d body, out)
            | None => Raise Unsupported
            end
        | EmptyString => Raise SyntaxError
        end
      else if Ascii.eqb c "010" then Raise SyntaxError
      else '(body, out) ← lex_string q rest; Ok (String c body, out)
  end.

(** Whether a letter, a digit, an underscore or a point comes next. *)
Definition suffixed (rest : string) : bool :=
  match rest with
  | String c _ => is_ident_char c || Ascii.eqb c "."
  | EmptyString => false
  end.

(** What follows a point, if a point comes next. *)
Definition after_point (rest : string) : option string :=
  match rest with
  | String c after => if Ascii.eqb c "." then Some after else None
  | EmptyString => None
  end.

(** A decimal integer literal, or a float literal that is the print of a
    modelled float.  An integer literal with a leading zero is octal in
    Python 2 and is left outside the fragment, as are longs, exponents,
    other float literals and other suffixed literals. *)
Definition lex_number (s : string) : Result (PyVal * string) :=
  let '(digits, rest) := span is_digit s in
  match after_point rest with
  | Some after =>
      let '(fraction, rest') := span is_digit after in
      match NilEmpty.uint_of_string digits, NilEmpty.uint_of_string fraction with
      | Some d, Some f =>
          if negb (suffixed rest') && Decimal.uint_beq (Decimal.unorm d) d
             && float_ok (N.of_uint d) f
          then Ok (VFloat false (N.of_uint d) f, rest')
          else Raise Unsupported
      | _, _ => Raise Unsupported
      end
  | None =>
      if suffixed rest then Raise Unsupported
      else
        match NilEmpty.uint_of_string digits with
        | Some d =>
            if Decimal.uint_beq (Decimal.unorm d) d then Ok (VInt (Z.of_uint d), rest)
            else Raise Unsupported
        | None => Raise SyntaxError
        end
  end.

(** *** Parser

    Recursive descent, without a separate token stream.  The functions of
    one nesting level are parameterised by [parse_expr], the parser for the
    expressions nested inside brackets; [n] bounds the number of iterations
    of a loop. *)

Section Level.

Variable parse_expr : string -> Result (Expr * string).

(** Comma-separated expressions up to the closing character [close]; the
    first expression starts at [s]. *)
Fixpoint parse_items (n : nat) (close : ascii) (acc : list Expr) (s : string)
  : Result (list Expr * string) :=
  match n with
  | O => Raise Unsupported
  | S n' =>
      '(e, s1) ← parse_expr s;
      match skip_ws s1 with
      | String c s2 =>
          if Ascii.eqb c close then Ok (rev (e :: acc), s2)
          else if Ascii.eqb c "," then parse_items n' close (e :: acc) (skip_ws s2)
          else Raise Unsupported
      | EmptyString => Raise SyntaxError
      end
  end.

(** Comma-separated [key: value] pairs up to the closing brace. *)
Fixpoint parse_pairs (n : nat) (acc : list (Expr * Expr)) (s : string)
  : Result (list (Expr * Expr) * string) :=
  match n with
  | O => Raise Unsupported
  | S n' =>
      '(k, s1) ← parse_expr s;
      match skip_ws s1 with
      | String ":" s2 =>
          '(v, s3) ← parse_expr (skip_ws s2);
          match skip_ws s3 with
          | String c s4 =>
              if Ascii.eqb c "}" then Ok (rev ((k, v) :: acc), s4)
              else if Ascii.eqb c "," then parse_pairs n' ((k, v) :: acc) (skip_ws s4)
              else Raise Unsupported
          | EmptyString => Raise SyntaxError
          end
      | _ => Raise Unsupported
      end
  end.

Definition parse_atom (n : nat) (s : string) : Result (Expr * string) :=
  match s with
  | EmptyString => Raise SyntaxError
  | String c rest =>
      if Ascii.eqb c "[" then
        match skip_ws rest with
        | String "]" rest' => Ok (EList [], rest')
        | inner => '(items, rest') ← parse_items n "]" [] inner; Ok (EList items, rest')
        end
      else if Ascii.eqb c "{" then
        match skip_ws rest with
        | String "}" rest' => Ok (EDict [], rest')
        | inner => '(items, rest') ← parse_pairs n [] inner; Ok (EDict items, rest')
        end
      else if Ascii.eqb c "(" then
        match skip_ws rest with
        | String ")" rest' => Ok (ETuple [], rest')
        | inner =>
            '(e, s1) ← parse_expr inner;
            match skip_ws s1 with
            | String ")" rest' => Ok (e, rest')
            | String "," s2 =>
                match skip_ws s2 with
                | String ")" rest' => Ok (ETuple [e], rest')
                | more => '(items, rest') ← parse_items n ")" [e] more; Ok (ETuple items, rest')
                end
            | _ => Raise Unsupported
            end
        end
      else if Ascii.eqb c squote || Ascii.eqb c dquote then
        '(body, rest') ← lex_string c rest; Ok (EConst (VStr body), rest')
      else if is_digit c then
        '(v, rest') ← lex_number s; Ok (EConst v, rest')
      else if is_ident_start c then
        let '(name, rest') := span is_ident_char s in
        if String.eqb name "None" then Ok (EConst VNone, rest')
        else if String.eqb name "True" then Ok (EConst (VBool true), rest')
        else if String.eqb name "False" then Ok (EConst (VBool false), rest')
        else Ok (EName name, rest')
      else Raise Unsupported
  end.

(** Subscripts and calls applied to an atom. *)
Fixpoint parse_trailers (n : nat) (e : Expr) (s : string) : Result (Expr * string) :=
  match n with
  | O => Raise Unsupported
  | S n' =>
      match skip_ws s with
      | String "[" s1 =>
          '(k, s2) ← parse_expr (skip_ws s1);
          match skip_ws s2 with
          | String "]" s3 => parse_trailers n' (ESubscript e k) s3
          | _ => Raise Unsupported
          end
      | String "(" s1 =>
          match skip_ws s1 with
          | String ")" s2 => parse_trailers n' (ECall e []) s2
          | inner =>
              '(args, s2) ← parse_items n ")" [] inner;
              parse_trailers n' (ECall e args) s2
          end
      | String "." _ => Raise Unsupported
      | _ => Ok (e, s)
      end
  end.

Definition parse_operand (n : nat) (s : string) : Result (Expr * string) :=
  match s with
  | String "-" rest =>
      '(a, s1) ← parse_atom n (skip_ws rest);
      '(e, s2) ← parse_trailers n a s1;
      Ok (ENeg e, s2)
  | _ =>
      '(a, s1) ← parse_atom n s;
      parse_trailers n a s1
  end.

Definition lex_cmpop (s : string) : option (CmpOp * string) :=
  match s with
  | String "<" (String "=" rest) => Some (CLe, rest)
  | String ">" (String "=" rest) => Some (CGe, rest)
  | String "=" (String "=" rest) => Some (CEq, rest)
  | String "!" (String "=" rest) => Some (CNe, rest)
  | String "<" rest => Some (CLt, rest)
  | String ">" rest => Some (CGt, rest)
  | _ => None
  end.

(** The comparisons chained after a first operand. *)
Fixpoint parse_chain (n : nat) (acc : list (CmpOp * Expr)) (s : string)
  : Result (list (CmpOp * Expr) * string) :=
  match n with
  | O => Raise Unsupported
  | S n' =>
      match lex_cmpop (skip_ws s) with
      | Some (op, s1) =>
          '(e, s2) ← parse_operand n (skip_ws s1);
          parse_chain n' ((op, e) :: acc) s2
      | None => Ok (rev acc, s)
      end
  end.

Definition parse_comparison (n : nat) (s : string) : Result (Expr * string) :=
  '(first, s1) ← parse_operand n s;
  '(rest, s2) ← parse_chain n [] s1;
  match rest with
  | [] => Ok (first, s2)
  | _ => Ok (ECompare first rest, s2)
  end.

End Level.

Fixpoint parse_expr (fuel : nat) (s : string) : Result (Expr * string) :=
  match fuel with
  | O => Raise Unsupported
  | S fuel' => parse_comparison (parse_expr fuel') fuel s
  end.

(** A whole text: one expression, surrounded by optional blanks. *)
Definition parse (text : string) : Result Expr :=
  '(e, rest) ← parse_expr (String.length text) (skip_ws text);
  match skip_ws rest with
  | EmptyString => Ok e
  | _ => Raise Unsupported
  end.

(** *** Evaluation *)

(** [d[key] = v] on the fields of a dictionary: an existing key keeps its
    place, a new key goes last. *)
Fixpoint field_set (key : string) (v : PyVal) (kvs : list (string * PyVal))
  : list (string * PyVal) :=
  match kvs with
  | [] => [(key, v)]
  | (k, v') :: rest =>
      if String.eqb k key then (k, v) :: rest else (k, v') :: field_set key v rest
  end.

(** [container[key]] *)
Definition subscript (container key : PyVal) : Result PyVal :=
  match container with
  | VDict kvs =>
      match key with
      | VStr k => match field_lookup k kvs with Some v => Ok v | None => Raise KeyError end
      | VList _ | VDict _ => Raise TypeError
      | VTuple _ => Raise Unsupported
      | _ => Raise KeyError
      end
  | VList xs | VTuple xs =>
      match key with
      | VInt i =>
          let n := Z.of_nat (length xs) in
          let j := if i <? 0 then i + n else i in
          if (j <? 0) || (n <=? j) then Raise IndexError
          else match nth_error xs (Z.to_nat j) with Some v => Ok v | None => Raise IndexError end
      | _ => Raise TypeError
      end
  | VStr _ => Raise Unsupported
  | _ => Raise TypeError
  end.

(** The characters [int] and [str.strip] take for blanks in a byte string:
    blank, tab, newline, vertical tab, form feed and carriage return. *)
Definition is_py_space (c : ascii) : bool :=
  ((9 <=? N_of_ascii c)%N && (N_of_ascii c <=? 13)%N) || Ascii.eqb c " ".

Fixpoint lstrip (s : string) : string :=
  match s with
  | String c rest => if is_py_space c then lstrip rest else s
  | EmptyString => s
  end.

(** Texts on which the versions of [int] differ: an underscore, the suffix
    of a long, a byte that is not ASCII, or a blank right after the sign. *)
Definition int_text_unsettled (signed : bool) (unsigned text : string) : bool :=
  (signed && match unsigned with String c _ => is_py_space c | EmptyString => false end)
  || existsb (fun c => Ascii.eqb c "_" || Ascii.eqb c "L" || Ascii.eqb c "l"
                       || (128 <=? N_of_ascii c)%N)
             (list_ascii_of_string text).

(** [int(v)]: an integer as it is, a float cut off at the point, and a text
    that holds, between blanks, a decimal integer with or without a sign. *)
Definition py_int (v : PyVal) : Result Z :=
  match v with
  | VInt z => Ok z
  | VBool b => Ok (if b then 1 else 0)
  | VFloat negative whole _ => Ok (if negative then - Z.of_N whole else Z.of_N whole)
  | VStr s =>
      let body := lstrip s in
      let '(signed, negative, unsigned) :=
        match body with
        | String "-" r => (true, true, r)
        | String "+" r => (true, false, r)
        | _ => (false, false, body)
        end in
      let '(digits, rest) := span is_digit unsigned in
      match digits, lstrip rest with
      | String _ _, EmptyString =>
          match NilEmpty.uint_of_string digits with
          | Some d => Ok (if negative then - Z.of_uint d else Z.of_uint d)
          | None => Raise ValueError
          end
      | _, _ => if int_text_unsettled signed unsigned s then Raise Unsupported
                else Raise ValueError
      end
  | _ => Raise TypeError
  end.

(** An integer or a boolean as the comparison operators see it. *)
Definition as_number (v : PyVal) : option Z :=
  match v with
  | VInt z => Some z
  | VBool b => Some (if b then 1 else 0)
  | _ => None
  end.

(** A number as a decimal fraction: [(n, k)] stands for [n / 10^k]. *)
Definition as_decimal (v : PyVal) : option (Z * nat) :=
  match v with
  | VFloat negative whole fraction =>
      let k := Decimal.nb_digits fraction in
      let n := Z.of_N whole * 10 ^ Z.of_nat k + Z.of_uint fraction in
      Some (if negative then - n else n, k)
  | _ =>
      match as_number v with
      | Some z => Some (z, O)
      | None => None
      end
  end.

Definition compare_values (op : CmpOp) (a b : PyVal) : Result bool :=
  let on_order (c : comparison) : bool :=
    match op, c with
    | CLe, Gt => false | CLe, _ => true
    | CLt, Lt => true | CLt, _ => false
    | CGe, Lt => false | CGe, _ => true
    | CGt, Gt => true | CGt, _ => false
    | CEq, Eq => true | CEq, _ => false
    | CNe, Eq => false | CNe, _ => true
    end in
  match as_number a, as_number b with
  | Some x, Some y => Ok (on_order (x ?= y))
  | _, _ =>
      match as_decimal a, as_decimal b with
      | Some (x, j), Some (y, k) =>
          Ok (on_order (x * 10 ^ Z.of_nat k ?= y * 10 ^ Z.of_nat j))
      | _, _ =>
          match a, b with
          | VStr x, VStr y => Ok (on_order (String.compare x y))
          | _, _ => Raise Unsupported
          end
      end
  end.

Fixpoint eval_expr (e : Expr) : Result PyVal :=
  match e with
  | EConst v => Ok v
  | EName _ => Raise Unsupported
  | ENeg a =>
      v ← eval_expr a;
      match v with
      | VFloat negative whole fraction => Ok (VFloat (negb negative) whole fraction)
      | _ =>
          match as_number v with
          | Some z => Ok (VInt (- z))
          | None => Raise TypeError
          end
      end
  | EList items =>
      xs ← (fix go (es : list Expr) : Result (list PyVal) :=
              match es with
              | [] => Ok []
              | a :: r => v ← eval_expr a; vs ← go r; Ok (v :: vs)
              end) items;
      Ok (VList xs)
  | ETuple items =>
      xs ← (fix go (es : list Expr) : Result (list PyVal) :=
              match es with
              | [] => Ok []
              | a :: r => v ← eval_expr a; vs ← go r; Ok (v :: vs)
              end) items;
      Ok (VTuple xs)
  | EDict items =>
      (* Python 2 evaluates the value of an entry before its key *)
      (fix go (kvs : list (Expr * Expr)) (acc : list (string * PyVal)) : Result PyVal :=
         match kvs with
         | [] => Ok (VDict acc)
         | (k, a) :: r =>
             v ← eval_expr a;
             key ← eval_expr k;
             match key with
             | VStr name => go r (field_set name v acc)
             | _ => Raise Unsupported
             end
         end) items []
  | ESubscript a k =>
      container ← eval_expr a;
      key ← eval_expr k;
      subscript container key
  | ECall f args =>
      match f, args with
      | EName "int", [a] => v ← eval_expr a; z ← py_int v; Ok (VInt z)
      | _, _ => Raise Unsupported
      end
  | ECompare first rest =>
      v0 ← eval_expr first;
      (fix chain (left : PyVal) (ops : list (CmpOp * Expr)) {struct ops} : Result PyVal :=
         match ops with
         | [] => Ok left
         | (op, a) :: r =>
             right ← eval_expr a;
             b ← compare_values op left right;
             if (b : bool) then match r with [] => Ok (VBool true) | _ => chain right r end
             else Ok (VBool false)
         end) v0 rest
  end.

(** [eval(text)] on the modelled fragment; [Raise Unsupported] says that the
    text lies outside it. *)
Definition py_eval (text : string) : Result PyVal :=
  e ← parse text; eval_expr e.

End Builtins.

Export Builtins.

(* ===================================================================== *)
(** ** Objects, dictionaries and one-shot iterators *)
(* ===================================================================== *)

Module Objects.

(** Hashable values as dictionary keys.  [True] and [1] are the same key. *)
Inductive Key : Type := KNone | KInt (z : Z) | KStr (s : string).

#[export] Instance Key_eq_dec : EqDecision Key.
Proof. solve_decision. Defined.

(** The key a value is looked up under: lists and dictionaries are
    unhashable; a float is the key of the integer it equals, if any; tuple
    keys and other floats are not modelled. *)
Definition key_of (v : PyVal) : Result Key :=
  match v with
  | VNone => Ok KNone
  | VBool b => Ok (KInt (if b then 1 else 0))
  | VInt z => Ok (KInt z)
  | VFloat negative whole fraction =>
      if Z.of_uint fraction =? 0
      then Ok (KInt (if negative then - Z.of_N whole else Z.of_N whole))
      else Raise Unsupported
  | VStr s => Ok (KStr s)
  | VList _ | VDict _ => Raise TypeError
  | VTuple _ => Raise Unsupported
  end.

Definition key_val (k : Key) : PyVal :=
  match k with
  | KNone => VNone
  | KInt z => VInt z
  | KStr s => VStr s
  end.

(** Address of a one-shot iterator. *)
Abbreviation loc := nat.

(** What a name, an attribute or a dictionary slot can hold: plain data, a
    dictionary object ([greedy] tells a [GreedyDict] from a [dict]), or a
    reference to a one-shot iterator. *)
Inductive Obj : Type :=
| OData (v : PyVal)
| ODict (greedy : bool) (items : list (Key * Obj))
| OIter (r : loc).

(** A dictionary in iteration order. *)
Definition Items : Type := list (Key * Obj).

Fixpoint dict_get (k : Key) (items : Items) : option Obj :=
  match items with
  | [] => None
  | (k', v) :: rest => if decide (k' = k) then Some v else dict_get k rest
  end.

(** [dict.__setitem__].  The order of the list stands for the iteration
    order of the dictionary, which Python 2 leaves to its hash table: that a
    new key goes last here is a choice of the model.  What is proved about
    the code is stated through lookups, relative to the order in which the
    dictionary gives its entries, or up to a permutation of them. *)
Fixpoint dict_set (k : Key) (v : Obj) (items : Items) : Items :=
  match items with
  | [] => [(k, v)]
  | (k', v') :: rest =>
      if decide (k' = k) then (k', v) :: rest else (k', v') :: dict_set k v rest
  end.

(** [isinstance(value, types.GeneratorType)] holds of generator objects only;
    every other one-shot iterator ([iter(list)], [itertools.imap], an open
    file, ...) is an [OtherIterator]. *)
Inductive IterKind : Type := GeneratorType | OtherIterator.

(** A one-shot iterator: the values it has still to produce, and the
    exception that ends it, if it does not end normally. *)
Record IterState : Type := {
  iter_kind : IterKind;
  pending : list PyVal;
  failure : option Exn;
}.

Abbreviation Heap := (gmap loc IterState).

Definition exhausted (st : IterState) : IterState :=
  {| iter_kind := iter_kind st; pending := []; failure := None |}.

(** A fresh iterator object. *)
Definition alloc (st : IterState) (h : Heap) : loc * Heap :=
  let r := fresh (dom h) in (r, <[r := st]> h).

(** [list(o)], or a [for] loop run to its end: all the values of [o].  An
    iterator is consumed by it. *)
Definition iterate (o : Obj) (h : Heap) : Result (list PyVal) * Heap :=
  match o with
  | OData (VList xs) | OData (VTuple xs) => (Ok xs, h)
  | OData (VDict kvs) => (Ok (map (fun kv => VStr (fst kv)) kvs), h)
  | OData (VStr s) =>
      (Ok (map (fun c => VStr (String c EmptyString)) (list_ascii_of_string s)), h)
  | OData _ => (Raise TypeError, h)
  | ODict _ items => (Ok (map (fun kv => key_val (fst kv)) items), h)
  | OIter r =>
      match h !! r with
      | Some st =>
          (match failure st with None => Ok (pending st) | Some e => Raise e end,
           <[r := exhausted st]> h)
      | None => (Raise Unsupported, h)
      end
  end.

(** A [for] loop over [o]: the values the body of the loop can be run on,
    and the exception that ends the loop after them, if any. *)
Definition supply (o : Obj) (h : Heap) : list PyVal * option Exn :=
  match o with
  | OIter r =>
      match h !! r with
      | Some st => (pending st, failure st)
      | None => ([], Some Unsupported)
      end
  | _ =>
      match fst (iterate o h) with
      | Ok xs => (xs, None)
      | Raise e => ([], Some e)
      end
  end.

(** The iterators after a loop over [o] that ran to the end of [o]. *)
Definition drained (o : Obj) (h : Heap) : Heap :=
  match o with
  | OIter r =>
      match h !! r with
      | Some st => <[r := exhausted st]> h
      | None => h
      end
  | _ => h
  end.

(** The iterators after a loop over [o] that its body left by an exception,
    when [rest] were still to come. *)
Definition suspended (o : Obj) (rest : list PyVal) (h : Heap) : Heap :=
  match o with
  | OIter r =>
      match h !! r with
      | Some st =>
          <[r := {| iter_kind := iter_kind st; pending := rest; failure := failure st |}]> h
      | None => h
      end
  | _ => h
  end.

(** [bool(o)] *)
Definition truthy_obj (o : Obj) : bool :=
  match o with
  | OData v => truthy v
  | ODict _ items => match items with [] => false | _ => true end
  | OIter _ => true
  end.

(** [str(o)]; the text of a non-data object is not modelled. *)
Definition obj_str (o : Obj) : Result string :=
  match o with
  | OData v => Ok (py_str v)
  | _ => Raise Unsupported
  end.

(** [o[key]] *)
Definition obj_subscript (o : Obj) (key : PyVal) : Result Obj :=
  match o with
  | OData v => r ← subscript v key; Ok (OData r)
  | ODict _ items =>
      k ← key_of key;
      match dict_get k items with
      | Some v => Ok v
      | None => Raise KeyError
      end
  | OIter _ => Raise TypeError
  end.

(** [key in o] *)
Definition obj_contains (o : Obj) (key : PyVal) : Result bool :=
  match o with
  | ODict _ items => k ← key_of key; Ok (bool_decide (is_Some (dict_get k items)))
  | OData (VDict kvs) =>
      k ← key_of key;
      match k with
      | KStr name => Ok (bool_decide (is_Some (field_lookup name kvs)))
      | _ => Ok false
      end
  | OData VNone | OData (VBool _) | OData (VInt _) | OData (VFloat _ _ _) => Raise TypeError
  | _ => Raise Unsupported
  end.

(** *** [GreedyDict] (out_memory.py)

    [GreedyDict.__setitem__(key, value)]: a generator is replaced by the list
    of its values before [dict.__setitem__] runs; any other value is stored
    as it is.  The comprehension consumes the generator, and raises what the
    generator raises.  (The method's [print] calls write to standard output
    and change nothing else; they are left out.) *)
Definition GreedyDict_setitem (items : Items) (key : Key) (value : Obj) (h : Heap)
  : Result Items * Heap :=
  match value with
  | OIter r =>
      match h !! r with
      | Some st =>
          match iter_kind st with
          | GeneratorType =>
              match failure st with
              | None => (Ok (dict_set key (OData (VList (pending st))) items),
                         <[r := exhausted st]> h)
              | Some e => (Raise e, <[r := exhausted st]> h)
              end
          | OtherIterator => (Ok (dict_set key value items), h)
          end
      | None => (Raise Unsupported, h)
      end
  | _ => (Ok (dict_set key value items), h)
  end.

(** [container[key] = value], where [container] is whatever object an
    attribute holds. *)
Definition obj_setitem (container : Obj) (key : PyVal) (value : Obj) (h : Heap)
  : Result Obj * Heap :=
  match container with
  | ODict true items =>
      match key_of key with
      | Ok k =>
          match GreedyDict_setitem items k value h with
          | (Ok items', h') => (Ok (ODict true items'), h')
          | (Raise e, h') => (Raise e, h')
          end
      | Raise e => (Raise e, h)
      end
  | ODict false items =>
      match key_of key with
      | Ok k => (Ok (ODict false (dict_set k value items)), h)
      | Raise e => (Raise e, h)
      end
  | OData (VDict _) | OData (VList _) => (Raise Unsupported, h)
  | _ => (Raise TypeError, h)
  end.

End Objects.
Export Objects.

(* ===================================================================== *)
(** ** [InMemoryOutput] (out_memory.py) *)
(* ===================================================================== *)

Module Output.

(** The attributes of an output object, by name. *)
Abbreviation Attrs := (gmap string Obj).

(** The local variables of the generator [get_filtered_data], which a text
    handed to [eval] can name. *)
Record Frame : Type := {
  frame_self : Attrs;
  frame_field_to_get : PyVal;
  frame_filter : PyVal;
  frame_doc_id : Key;
  frame_doc : Obj;
}.

(** What Python answers where the modelled fragment stops: whether the
    value of a text that [eval] is given in a frame is true (or the exception
    that the evaluation or the truth test raises), and the text
    [template.format(doc)].  Both are taken to leave the corpus and its
    documents as they are. *)
Class Interpreter : Type := {
  eval_beyond : Frame -> string -> Result bool;
  format_beyond : string -> Obj -> Result string;
}.

(** What a generator does when it is run to its end: it yields values and
    calls [eval] on texts, and ends normally or with an exception. *)
Inductive Event : Type :=
| Yield (v : PyVal)
| Evaluated (text : string).

Inductive Run : Type :=
| Done
| Fail (e : Exn)
| Emit (ev : Event) (next : Run).

Fixpoint yields (run : Run) : list PyVal :=
  match run with
  | Emit (Yield v) next => v :: yields next
  | Emit (Evaluated _) next => yields next
  | _ => []
  end.

Fixpoint evaluated (run : Run) : list string :=
  match run with
  | Emit (Evaluated t) next => t :: evaluated next
  | Emit (Yield _) next => evaluated next
  | _ => []
  end.

Fixpoint outcome (run : Run) : option Exn :=
  match run with
  | Done => None
  | Fail e => Some e
  | Emit _ next => outcome next
  end.

(** Calling a generator function builds a generator object; its body runs
    when the object is iterated. *)
Definition generator_of (run : Run) : IterState :=
  {| iter_kind := GeneratorType; pending := yields run; failure := outcome run |}.

(** Calling a generator function: a new generator object, at an address
    not in use. *)
Definition call_generator (run : Run) (h : Heap) : Obj * Heap :=
  let '(r, h') := alloc (generator_of run) h in (OIter r, h').

(** [doc_id, doc["_source"][field_to_get]] *)
Definition selected_pair (doc_id : Key) (doc : Obj) (field_to_get : PyVal) : Result PyVal :=
  source ← obj_subscript doc (VStr "_source");
  value ← obj_subscript source field_to_get;
  match value with
  | OData v => Ok (VTuple [key_val doc_id; v])
  | _ => Raise Unsupported
  end.

(** The loop of [get_filtered_data] taken when [not filter]. *)
Fixpoint unfiltered_loop (field_to_get : PyVal) (entries : Items) : Run :=
  match entries with
  | [] => Done
  | (doc_id, doc) :: rest =>
      match selected_pair doc_id doc field_to_get with
      | Ok item => Emit (Yield item) (unfiltered_loop field_to_get rest)
      | Raise e => Fail e
      end
  end.

Section Interpreted.

Context {I : Interpreter}.

(** [filter.format(doc)]; only a string has a [format] method. *)
Definition filter_text (filter : PyVal) (doc : Obj) : Result string :=
  match filter with
  | VStr template =>
      match text ← obj_str doc; py_format template [text] with
      | Raise Unsupported => format_beyond template doc
      | formatted => formatted
      end
  | _ => Raise AttributeError
  end.

(** The test [if eval(text):] in the frame of the generator: whether the
    value of the text is true. *)
Definition eval_text (frame : Frame) (text : string) : Result bool :=
  match py_eval text with
  | Ok value => Ok (truthy value)
  | Raise Unsupported => eval_beyond frame text
  | Raise e => Raise e
  end.

(** The loop of [get_filtered_data] taken otherwise: the filter, with the
    document printed into it, is handed to [eval]. *)
Fixpoint filtered_loop (self : Attrs) (field_to_get filter : PyVal) (entries : Items) : Run :=
  match entries with
  | [] => Done
  | (doc_id, doc) :: rest =>
      match filter_text filter doc with
      | Raise e => Fail e
      | Ok text =>
          Emit (Evaluated text)
            match eval_text {| frame_self := self; frame_field_to_get := field_to_get;
                               frame_filter := filter; frame_doc_id := doc_id;
                               frame_doc := doc |} text with
            | Raise e => Fail e
            | Ok verdict =>
                if verdict then
                  match selected_pair doc_id doc field_to_get with
                  | Ok item => Emit (Yield item) (filtered_loop self field_to_get filter rest)
                  | Raise e => Fail e
                  end
                else filtered_loop self field_to_get filter rest
            end
      end
  end.

(** [self.corpus.items()] *)
Definition corpus_items (self : Attrs) : Result Items :=
  match self !! "corpus" with
  | Some (ODict _ items) => Ok items
  | Some (OData (VDict kvs)) => Ok (map (fun kv => (KStr (fst kv), OData (snd kv))) kvs)
  | _ => Raise AttributeError
  end.

(** [get_filtered_data(self, field_to_get, filter='')]: the body of the
    generator. *)
Definition get_filtered_data (self : Attrs) (field_to_get filter : PyVal) : Run :=
  if negb (truthy filter) then
    match corpus_items self with
    | Ok entries => unfiltered_loop field_to_get entries
    | Raise e => Fail e
    end
  else
    match corpus_items self with
    | Ok entries => filtered_loop self field_to_get filter entries
    | Raise e => Fail e
    end.



End Interpreted.

Section CorpusImport.

(** The builtin [hash] on hashable values. *)
Variable py_hash : PyVal -> Z.

Fixpoint hashable (v : PyVal) : bool :=
  match v with
  | VList _ | VDict _ => false
  | VTuple xs => forallb hashable xs
  | _ => true
  end.

(** One turn of the loop of [import_from_iterable]:
    [self.corpus[hash(item[field_to_hash])] = {"_source": item}], where a
    string [item] is first wrapped as [{field_to_hash: item}]. *)
Definition import_item (field_to_hash : string) (item : PyVal) (corpus : Items)
  : Result Items :=
  let item := match item with
              | VStr _ => VDict [(field_to_hash, item)]
              | _ => item
              end in
  hashed ← subscript item (VStr field_to_hash);
  if hashable hashed then
    Ok (dict_set (KInt (py_hash hashed)) (OData (VDict [("_source", item)])) corpus)
  else Raise TypeError.

Fixpoint import_loop (field_to_hash : string) (items : list PyVal) (corpus : Items)
  : Result Items * Items :=
  match items with
  | [] => (Ok corpus, corpus)
  | item :: rest =>
      match import_item field_to_hash item corpus with
      | Ok corpus' => import_loop field_to_hash rest corpus'
      | Raise e => (Raise e, corpus)
      end
  end.

(** The items the loop of [import_from_iterable] has not reached when its
    body raises. *)
Fixpoint unvisited (field_to_hash : string) (items : list PyVal) (corpus : Items)
  : list PyVal :=
  match items with
  | [] => []
  | item :: rest =>
      match import_item field_to_hash item corpus with
      | Ok corpus' => unvisited field_to_hash rest corpus'
      | Raise _ => rest
      end
  end.

(** [import_from_iterable(self, iterable, field_to_hash)].  The corpus
    attribute keeps the documents stored before an exception, whether the
    body of the loop raises it or the iterable does. *)
Definition import_from_iterable (self : Attrs) (iterable : Obj) (field_to_hash : PyVal)
    (h : Heap) : Result unit * Attrs * Heap :=
  if truthy field_to_hash then
    match field_to_hash with
    | VStr field =>
        let self := <["hash_field" := OData field_to_hash]> self in
        let '(items, ending) := supply iterable h in
        let ended : Result unit :=
          match ending with Some e => Raise e | None => Ok tt end in
        match items with
        | [] => (ended, self, drained iterable h)
        | first :: others =>
            match self !! "corpus" with
            | Some (ODict greedy corpus) =>
                match import_loop field items corpus with
                | (Ok _, corpus') =>
                    (ended, <["corpus" := ODict greedy corpus']> self, drained iterable h)
                | (Raise e, corpus') =>
                    (Raise e, <["corpus" := ODict greedy corpus']> self,
                     suspended iterable (unvisited field items corpus) h)
                end
            | Some _ => (Raise Unsupported, self, suspended iterable others h)
            | None =>
                (match import_item field first [] with
                 | Ok _ => Raise AttributeError
                 | Raise e => Raise e
                 end, self, suspended iterable others h)
            end
        end
    | _ => (Raise Unsupported, <["hash_field" := OData field_to_hash]> self, h)
    end
  else (Raise ValueError, self, h).

(** [x if x else GreedyDict()] *)
Definition or_greedy (o : Obj) : Obj :=
  if truthy_obj o then o else ODict true [].

(** [InMemoryOutput.__init__].  [base] holds the attributes left by
    [OutputInterface.__init__] (base_output.py), a parameter here. *)
Definition InMemoryOutput_init (base : Attrs)
    (iterable : Obj) (hash_field : PyVal)
    (tokenized_corpora vectorized_corpora modeled_corpora : Obj) (h : Heap)
  : Result unit * Attrs * Heap :=
  let self := <["corpus" := ODict true []]> base in
  let '(r, self, h) :=
    if truthy_obj iterable then import_from_iterable self iterable hash_field h
    else (Ok tt, self, h) in
  match r with
  | Raise e => (Raise e, self, h)
  | Ok _ =>
      let self := <["tokenized_corpora" := or_greedy tokenized_corpora]> self in
      let self := <["vectorized_corpora" := or_greedy vectorized_corpora]> self in
      let self := <["modeled_corpora" := or_greedy modeled_corpora]> self in
      (Ok tt, self, h)
  end.

End CorpusImport.

End Output.

Export Output.

(* ===================================================================== *)
(** ** [TopikProject] (project.py) *)
(* ===================================================================== *)

Module Project.

Import Fingerprint.

Section Interpreted.

Context {I : Interpreter}.

(** A project, the output object it owns, and the iterators alive. *)
Record World : Type := {
  self : Attrs;
  output : Attrs;
  heap : Heap;
}.

Definition with_self (w : World) (a : Attrs) : World :=
  {| self := a; output := output w; heap := heap w |}.
Definition with_output (w : World) (a : Attrs) : World :=
  {| self := self w; output := a; heap := heap w |}.
Definition with_heap (w : World) (h : Heap) : World :=
  {| self := self w; output := output w; heap := h |}.

(** [obj.name]: the class defines no [__getattr__], so a name that is not
    an attribute raises. *)
Definition getattr (obj : Attrs) (name : string) : Result Obj :=
  match obj !! name with
  | Some v => Ok v
  | None => Raise AttributeError
  end.

(** The attributes [TopikProject.__init__] sets, next to [self.output]. *)
Definition TopikProject_init : Attrs :=
  <["_model_id" := OData VNone]>
    (<["_vectorizer_id" := OData VNone]>
       (<["_tokenizer_id" := OData VNone]>
          (<["corpus_filter" := OData VNone]> ∅))).

(** Property [filtered_corpus]:
    [self.output.get_filtered_data(self.corpus_filter)].  The one argument
    is bound to [field_to_get]; [filter] keeps its default. *)
Definition filtered_corpus (w : World) : Result Obj * World :=
  match getattr (self w) "corpus_filter" with
  | Ok (OData corpus_filter) =>
      let run := get_filtered_data (output w) corpus_filter (VStr EmptyString) in
      let '(generator, h) := call_generator run (heap w) in
      (Ok generator, with_heap w h)
  | Ok _ => (Raise Unsupported, w)
  | Raise e => (Raise e, w)
  end.

(** [self.output.<table>[self.<pointer>]] *)
Definition selected_data (table pointer : string) (w : World) : Result Obj :=
  artifacts ← getattr (output w) table;
  id ← getattr (self w) pointer;
  match id with
  | OData key => obj_subscript artifacts key
  | _ => Raise Unsupported
  end.

(** Property [tokenized_data]: [self.output.tokenized_data[self._tokenizer_id]] *)
Definition tokenized_data : World -> Result Obj :=
  selected_data "tokenized_data" "_tokenizer_id".

(** Property [vectorized_data]: [self.output.vectorized_data[self._vectorizer_id]] *)
Definition vectorized_data : World -> Result Obj :=
  selected_data "vectorized_data" "_vectorizer_id".

(** Property [model_output]: [self.output.model_data[self._model_id]] *)
Definition model_output : World -> Result Obj :=
  selected_data "model_data" "_model_id".

(** [if id in <container>: self.<attribute> = id  else: raise ValueError(...)] *)
Definition select_in (container : Result Obj) (attribute : string) (id : PyVal) (w : World)
  : Result unit * World :=
  match c ← container; obj_contains c id with
  | Ok true => (Ok tt, with_self w (<[attribute := OData id]> (self w)))
  | Ok false => (Raise ValueError, w)
  | Raise e => (Raise e, w)
  end.

(** [select_tokenized_data]: tests [id in self.tokenizer_ids], assigns
    [self.selected_tokenizer]. *)
Definition select_tokenized_data (id : PyVal) (w : World) : Result unit * World :=
  select_in (getattr (self w) "tokenizer_ids") "selected_tokenizer" id w.

(** [select_vectorized_data]: tests [id in self.output.vectorized_data],
    assigns [self.selected_vectorizer]. *)
Definition select_vectorized_data (id : PyVal) (w : World) : Result unit * World :=
  select_in (getattr (output w) "vectorized_data") "selected_vectorizer" id w.

(** [select_model_data]: tests [id in self.output.model_data], assigns
    [self.selected_model]. *)
Definition select_model_data (id : PyVal) (w : World) : Result unit * World :=
  select_in (getattr (output w) "model_data") "selected_model" id w.

(** [self.output.<table>[fingerprint] = value; self.<pointer> = fingerprint] *)
Definition store_and_select (table pointer fingerprint : string) (value : Obj) (w : World)
  : Result unit * World :=
  match getattr (output w) table with
  | Raise e => (Raise e, w)
  | Ok artifacts =>
      match obj_setitem artifacts (VStr fingerprint) value (heap w) with
      | (Raise e, h) => (Raise e, with_heap w h)
      | (Ok artifacts', h) =>
          (Ok tt,
           {| self := <[pointer := OData (VStr fingerprint)]> (self w);
              output := <[table := artifacts']> (output w);
              heap := h |})
      end
  end.

Section Collaborators.

(** The stage functions ([tokenizers.tokenize], [transformers.transform])
    and the reader ([fileio._registry.read_input]) are parameters; they may
    raise, and may build or consume iterators. *)
Variable external_read_input :
  PyVal -> PyVal -> PyVal -> Kwargs -> Heap -> Result Obj * Heap.
Variable tokenizers_tokenize :
  Obj -> string -> Kwargs -> Heap -> Result Obj * Heap.
Variable transformers_transform :
  string -> Kwargs -> Heap -> Result Obj * Heap.

(** [read_input]: [self.output.corpus = read_input(source, ...)] *)
Definition read_input (source content_field source_type : PyVal) (kwargs : Kwargs)
    (w : World) : Result unit * World :=
  match external_read_input source content_field source_type kwargs (heap w) with
  | (Ok corpus, h) =>
      (Ok tt, {| self := self w; output := <["corpus" := corpus]> (output w); heap := h |})
  | (Raise e, h) => (Raise e, with_heap w h)
  end.

(** [tokenize(self, method, **kwargs)] *)
Definition tokenize (method : string) (kwargs : Kwargs) (w : World) : Result unit * World :=
  match filtered_corpus w with
  | (Raise e, w1) => (Raise e, w1)
  | (Ok corpus, w1) =>
      match tokenizers_tokenize corpus method kwargs (heap w1) with
      | (Raise e, h) => (Raise e, with_heap w1 h)
      | (Ok tokenized, h) =>
          store_and_select "token_data" "_tokenizer_id"
            (tokenize_parameter_string method kwargs) tokenized (with_heap w1 h)
      end
  end.

(** [transform(self, method, **kwargs)]: the stage function is called with
    the method and the keyword arguments only; the prior fingerprint is read
    from [self.tokenizer_id]. *)
Definition transform (method : string) (kwargs : Kwargs) (w : World) : Result unit * World :=
  match transformers_transform method kwargs (heap w) with
  | (Raise e, h) => (Raise e, with_heap w h)
  | (Ok transformed, h) =>
      let w1 := with_heap w h in
      match getattr (self w1) "tokenizer_id" with
      | Raise e => (Raise e, w1)
      | Ok (OData (VStr prior)) =>
          store_and_select "tokenized_data" "_tokenizer_id"
            (transform_parameter_string prior method kwargs) transformed w1
      | Ok _ => (Raise TypeError, w1)
      end
  end.

End Collaborators.

End Interpreted.

End Project.

(* ===================================================================== *)
(** ** [VectorizerRegistry] (vectorizers/_registry.py) *)
(* ===================================================================== *)

Module Registry.

Import Fingerprint.

(** A stage function. *)
Definition Fn : Type := Obj -> Kwargs -> Result Obj.

(** The interpreter state the registry lives in.  [VectorizerRegistry]
    subclasses [dict]: each instance has its own dictionary contents, kept
    here by address, and an attribute dictionary [__dict__].  The class
    attribute [__shared_state] is one dictionary for the whole process, and
    [__init__] makes it the [__dict__] of every instance. *)
Record Process : Type := {
  shared_state : gmap string PyVal;
  contents : gmap nat (gmap string Fn);
}.

Definition process_start : Process :=
  {| shared_state := ∅; contents := ∅ |}.

(** [VectorizerRegistry()]: [self.__dict__ = self.__shared_state], then
    [dict.__init__] with no arguments, which leaves the new dictionary
    empty. *)
Definition VectorizerRegistry (p : Process) : nat * Process :=
  let r := fresh (dom (contents p)) in
  (r, {| shared_state := shared_state p; contents := <[r := ∅]> (contents p) |}).

(** [instance.name = value] and [instance.name]: through the shared
    [__dict__]. *)
Definition instance_setattr (r : nat) (name : string) (value : PyVal) (p : Process) : Process :=
  {| shared_state := <[name := value]> (shared_state p); contents := contents p |}.

Definition instance_getattr (r : nat) (name : string) (p : Process) : Result PyVal :=
  match shared_state p !! name with
  | Some v => Ok v
  | None => Raise AttributeError
  end.

(** [instance[name]] *)
Definition instance_getitem (r : nat) (name : string) (p : Process) : Result Fn :=
  match contents p !! r with
  | Some d => match d !! name with Some f => Ok f | None => Raise KeyError end
  | None => Raise Unsupported
  end.

(** Modelled from the spec: [_base_register_decorator] of
    [topik.singleton_registry], of which [register] is the partial
    application to [registered_vectorizers].  Section 4.2 of the
    specification: "register(name, function): adds an entry; fails with
    DuplicateNameError if name already registered". *)
Definition _base_register_decorator (registry : nat) (name : string) (f : Fn) (p : Process)
  : Result unit * Process :=
  match contents p !! registry with
  | Some d =>
      match d !! name with
      | Some _ => (Raise DuplicateNameError, p)
      | None =>
          (Ok tt, {| shared_state := shared_state p;
                     contents := <[registry := <[name := f]> d]> (contents p) |})
      end
  | None => (Raise Unsupported, p)
  end.

(** [vectorize(corpus, method="tfidf", **kwargs)]:
    [VectorizerRegistry()[method](corpus, **kwargs)] *)
Definition vectorize (corpus : Obj) (method : string) (kwargs : Kwargs) (p : Process)
  : Result Obj * Process :=
  let '(r, p1) := VectorizerRegistry p in
  match instance_getitem r method p1 with
  | Ok f => (f corpus kwargs, p1)
  | Raise e => (Raise e, p1)
  end.

End Registry.

(* ===================================================================== *)
(** ** Notions used to relate [repr], the parser and [eval] *)
(* ===================================================================== *)

Module Literals.




















End Literals.
Export Literals.

(* ===================================================================== *)
(** ** What the specification expects of the filtered views *)
(* ===================================================================== *)

Module Expected.







(** [(doc_id, doc["_source"][field_to_get])] for every corpus entry. *)
Fixpoint every_pair (field_to_get : PyVal) (entries : Items) : Result (list PyVal) :=
  match entries with
  | [] => Ok []
  | (doc_id, doc) :: rest =>
      item ← selected_pair doc_id doc field_to_get;
      items ← every_pair field_to_get rest;
      Ok (item :: items)
  end.

Section Interpreted.

Context {I : Interpreter}.

(** The texts [filter.format(doc)] of the corpus entries. *)
Fixpoint filter_texts (filter : PyVal) (entries : Items) : Result (list string) :=
  match entries with
  | [] => Ok []
  | (_, doc) :: rest =>
      text ← filter_text filter doc;
      texts ← filter_texts filter rest;
      Ok (text :: texts)
  end.

(** Whether [eval(filter.format(doc))] is true for the entry, in the frame
    the generator has at that entry. *)
Definition verdict (self : Attrs) (field_to_get filter : PyVal) (entry : Key * Obj)
  : Result bool :=
  text ← filter_text filter (snd entry);
  eval_text {| frame_self := self; frame_field_to_get := field_to_get;
               frame_filter := filter; frame_doc_id := fst entry;
               frame_doc := snd entry |} text.

(** The entries for which [eval(filter.format(doc))] is true. *)
Definition eval_selected (self : Attrs) (field_to_get filter : PyVal) (entries : Items)
  : Items :=
  List.filter
    (fun entry =>
       match verdict self field_to_get filter entry with
       | Ok true => true
       | _ => false
       end)
    entries.

(** How the filtered generator ends at an entry it does not get past with
    the exception [e], and the texts [seen] it has handed to [eval] there:
    [format] fails; or the text is evaluated, and the evaluation fails or
    the document is selected and the field cannot be read. *)
Definition stopped (self : Attrs) (field_to_get filter : PyVal) (entry : Key * Obj)
    (e : Exn) (seen : list string) : Prop :=
  (filter_text filter (snd entry) = Raise e /\ seen = [])
  \/ exists text,
       filter_text filter (snd entry) = Ok text /\ seen = [text]
       /\ (verdict self field_to_get filter entry = Raise e
           \/ (verdict self field_to_get filter entry = Ok true
               /\ selected_pair (fst entry) (snd entry) field_to_get = Raise e)).

End Interpreted.

(** An entry as [import_from_iterable] stores it: the identifier is the hash
    of the hashed field of the document wrapped under ["_source"]. *)
Definition imported (py_hash : PyVal -> Z) (field_to_hash : string) (entry : Key * Obj)
  : Prop :=
  exists item hashed,
    entry = (KInt (py_hash hashed), OData (VDict [("_source", item)]))
    /\ subscript item (VStr field_to_hash) = Ok hashed.

End Expected.
Export Expected.

(* ===================================================================== *)
(** ** Fingerprints as printed text *)
(* ===================================================================== *)

Module Rendering.
Import Fingerprint.
(** A keyword argument as the fingerprint prints it. *)
Definition rendered (kv : string * PyVal) : string * string := (fst kv, py_str (snd kv)).

(** No key holds the character [=] and no printed value holds the delimiter [_]. *)
Definition separable (kwargs : Kwargs) : bool :=
  forallb (fun kv => negb (contains_char "=" (fst kv))
                     && negb (contains_char "_" (py_str (snd kv)))) kwargs.

(** The order [sorted] puts items with distinct keys in. *)
Definition key_lt (kv kv' : string * PyVal) : Prop :=
  String.compare (fst kv) (fst kv') = Lt.
End Rendering.

(* ===================================================================== *)
(** ** The end-to-end scenario *)
(* ===================================================================== *)

Module Scenario.

Import Fingerprint Project.

(** The corpus of the end-to-end scenario (section 8 of the specification). *)
Definition doc_a : PyVal :=
  VDict [("id", VStr "a"); ("text", VStr "cat dog"); ("year", VInt 2000)].
Definition doc_b : PyVal :=
  VDict [("id", VStr "b"); ("text", VStr "cat fish"); ("year", VInt 2010)].


(** An interpreter that knows one text beyond the fragment, [doc_id == 98],
    which names a local variable of the generator. *)
Definition names_doc_id : Interpreter :=
  {| eval_beyond := fun frame text =>
       if String.eqb text "doc_id == 98"
       then Ok (bool_decide (frame_doc_id frame = KInt 98))
       else Raise Unsupported;
     format_beyond := fun _ _ => Raise Unsupported |}.

(** An interpreter that knows the modelled fragment only. *)
Definition no_extension : Interpreter :=
  {| eval_beyond := fun _ _ => Raise Unsupported;
     format_beyond := fun _ _ => Raise Unsupported |}.

(** A stand-in for the builtin [hash]: the code of the first character. *)
Definition toy_hash (v : PyVal) : Z :=
  match v with
  | VStr (String c _) => Z.of_N (N_of_ascii c)
  | VInt z => z
  | _ => 0
  end.

(** [InMemoryOutput(iterable=[doc_a, doc_b], hash_field="id")] *)
Definition loaded_output : Attrs :=
  snd (fst (InMemoryOutput_init toy_hash ∅ (OData (VList [doc_a; doc_b])) (VStr "id")
              (OData VNone) (OData VNone) (OData VNone) ∅)).

(** An output object that has, next to its corpus, a table under each of the
    names project.py reads and writes. *)
Definition with_tables (corpus : Obj) : Attrs :=
  <["corpus" := corpus]>
    (<["token_data" := ODict true []]>
       (<["tokenized_data" := ODict true []]>
          (<["vectorized_data" :=
               ODict true [(KStr "a", OData (VList [VInt 1])); (KStr "b", OData (VList [VInt 2]))]]>
             (<["model_data" := ODict true []]> ∅)))).

Definition scenario_corpus : Obj :=
  ODict true [(KInt 97, OData (VDict [("_source", doc_a)]));
              (KInt 98, OData (VDict [("_source", doc_b)]))].

(** A project right after [__init__], on the scenario corpus. *)
Definition fresh_project (corpus : Obj) : World :=
  {| self := TopikProject_init; output := with_tables corpus; heap := ∅ |}.

(** The same project once [vectorize] has selected the artifact ["a"]. *)
Definition vectorized_project : World :=
  with_self (fresh_project scenario_corpus)
    (<["_vectorizer_id" := OData (VStr "a")]> TopikProject_init).

(** A project whose tokenizer selection is ["tk_simple_"]. *)
Definition tokenized_project : World :=
  {| self := <["_tokenizer_id" := OData (VStr "tk_simple_")]> TopikProject_init;
     output := <["tokenized_data" :=
                   ODict true [(KStr "tk_simple_", OData (VList [VList [VStr "cat"; VStr "dog"]]))]]>
                 (with_tables scenario_corpus);
     heap := ∅ |}.

(** A lazy stage function: the generator it returns produces what its input
    produces, and fails where its input fails. *)
Definition lazy_stage (input : Obj) (method : string) (kwargs : Kwargs) (h : Heap)
  : Result Obj * Heap :=
  match input with
  | OIter r =>
      match h !! r with
      | Some st =>
          let '(r', h') :=
            alloc {| iter_kind := GeneratorType; pending := pending st; failure := failure st |}
                  (<[r := exhausted st]> h) in
          (Ok (OIter r'), h')
      | None => (Raise Unsupported, h)
      end
  | _ => (Raise TypeError, h)
  end.

(** A reader that returns the documents it read, as a list. *)
Definition list_reader (source content_field source_type : PyVal) (kwargs : Kwargs) (h : Heap)
  : Result Obj * Heap :=
  (Ok (OData (VList [doc_a; doc_b])), h).

End Scenario.

(* ===================================================================== *)
(** ** The rest of [TopikProject] (project.py) *)
(* ===================================================================== *)

Module Pipeline.

Import Fingerprint Project.


(** [vectorize(self, method='', **kwargs)]; the stage function is
    [vectorize] of vectorizers/_registry.py, which works on the registry
    state [p]. *)
Definition vectorize (method : string) (kwargs : Kwargs) (w : World) (p : Registry.Process)
  : Result unit * World * Registry.Process :=
  match tokenized_data w with
  | Raise e => (Raise e, w, p)
  | Ok tokenized =>
      match Registry.vectorize tokenized method kwargs p with
      | (Raise e, p') => (Raise e, w, p')
      | (Ok vectorized, p') =>
          let '(r, w') :=
            store_and_select "vectorized_data" "_vectorizer_id"
              (stage_parameter_string method kwargs) vectorized w in
          (r, w', p')
      end
  end.

Section Collaborators.

(** [models.run_model] and [visualizers.visualize] are parameters. *)
Variable models_run_model : Obj -> string -> Kwargs -> Heap -> Result Obj * Heap.
Variable visualizers_visualize : Obj -> Kwargs -> Heap -> Result Obj * Heap.

(** [run_model(self, model_name, **kwargs)] *)
Definition run_model (model_name : string) (kwargs : Kwargs) (w : World)
  : Result unit * World :=
  match vectorized_data w with
  | Raise e => (Raise e, w)
  | Ok vectorized =>
      match models_run_model vectorized model_name kwargs (heap w) with
      | (Raise e, h) => (Raise e, with_heap w h)
      | (Ok model, h) =>
          store_and_select "model_data" "_model_id"
            (stage_parameter_string model_name kwargs) model (with_heap w h)
      end
  end.


End Collaborators.

(** [InMemoryOutput.save(self, filename)] (out_memory.py): the dictionary
    handed to the [save] of the base class, which is a parameter. *)
Definition saved_data (self : Attrs) : Result (list (string * Obj)) :=
  corpus ← getattr self "corpus";
  hash_field ← getattr self "hash_field";
  modeled ← getattr self "modeled_corpora";
  vectorized ← getattr self "vectorized_corpora";
  tokenized ← getattr self "tokenized_corpora";
  Ok [("iterable", corpus); ("hash_field", hash_field); ("modeled_corpora", modeled);
      ("vectorized_corpora", vectorized); ("tokenized_corpora", tokenized)].

Definition save (base_save : string -> list (string * Obj) -> Result Obj)
    (self : Attrs) (filename : string) : Result Obj :=
  data ← saved_data self; base_save filename data.

End Pipeline.

(* ===================================================================== *)
(** ** Noun-phrase tokenizers (tokenizers/entities.py) *)
(* ===================================================================== *)

Module Entities.

Import Fingerprint.

Section Tokenizers.

(** [TextBlob(text).noun_phrases] and [_simple_document] of
    [topik.tokenizers.simple] are parameters. *)
Variable noun_phrases : string -> list string.
Variable _simple_document : string -> PyVal -> PyVal -> list string.

(** [np_counts_total[np] = np_counts_total.get(np, 0) + 1] *)
Definition count_phrase (np_counts_total : gmap string Z) (np : string) : gmap string Z :=
  <[np := default 0 (np_counts_total !! np) + 1]> np_counts_total.

(** The counting loop of [_collect_entities] over the documents that
    [collection.get_generator_without_id()] produces.  Every thousandth turn
    re-sorts the counts and then calls [logging.info]; the module never
    imports [logging], so that call raises [NameError]. *)
Fixpoint collect_loop (docs : list string) (docs_examined : Z)
    (np_counts_total : gmap string Z) : Result (gmap string Z) :=
  match docs with
  | [] => Ok np_counts_total
  | doc :: rest =>
      if (0 <? docs_examined) && (docs_examined mod 1000 =? 0) then Raise NameError
      else collect_loop rest (docs_examined + 1)
             (fold_left count_phrase (noun_phrases doc) np_counts_total)
  end.

(** [_collect_entities(collection, freq_min=2, freq_max=10000)] *)
Definition _collect_entities (docs : list string) (freq_min freq_max : Z)
  : Result (gset string) :=
  np_counts_total ← collect_loop docs 0 ∅;
  Ok (dom (filter (fun kv : string * Z => freq_min <= snd kv <= freq_max) np_counts_total)).

(** [tmp = "_".join(_simple_document(np, ...)); if tmp: result.append(tmp)] *)
Definition joined_token (np : string) (min_length stopwords : PyVal) : list string :=
  let tmp := join_underscore (_simple_document np min_length stopwords) in
  if String.eqb tmp EmptyString then [] else [tmp].

(** [_tokenize_entities_document(text, entities, min_length=1, stopwords=None)] *)
Definition _tokenize_entities_document (text : string) (entities : gset string)
    (min_length stopwords : PyVal) : list string :=
  (fix loop (nps : list string) : list string :=
     match nps with
     | [] => []
     | np :: rest =>
         (if bool_decide (np ∈ entities) then joined_token np min_length stopwords else [])
         ++ loop rest
     end) (noun_phrases text).

(** [_tokenize_mixed_document(text, entities, min_length=1, stopwords=None)] *)
Definition _tokenize_mixed_document (text : string) (entities : gset string)
    (min_length stopwords : PyVal) : list string :=
  (fix loop (nps : list string) : list string :=
     match nps with
     | [] => []
     | np :: rest =>
         (if contains_char " " np && negb (bool_decide (np ∈ entities))
          then _simple_document np min_length stopwords
          else joined_token np min_length stopwords)
         ++ loop rest
     end) (noun_phrases text).

(** A corpus object as the two tokenizers use it: the documents
    [get_generator_without_id()] produces, if the object has that method
    (a list, a dictionary or a generator has not), and the documents
    iterating the object itself produces. *)
Record Collection : Type := {
  get_generator_without_id : option (list string);
  iterated : list string;
}.

(** [_collect_entities(corpus, ...)] on a corpus object. *)
Definition collected (corpus : Collection) (freq_min freq_max : Z) : Result (gset string) :=
  match get_generator_without_id corpus with
  | Some docs => _collect_entities docs freq_min freq_max
  | None => Raise AttributeError
  end.

(** [entities(corpus, min_length=1, freq_min=2, freq_max=10000, stopwords=None)]:
    the token lists the generator yields when it is run to its end.  The
    entities are collected before the first [yield]. *)
Definition entities (corpus : Collection) (min_length : PyVal) (freq_min freq_max : Z)
    (stopwords : PyVal) : Result (list (list string)) :=
  found ← collected corpus freq_min freq_max;
  Ok (map (fun doc => _tokenize_entities_document doc found min_length stopwords)
          (iterated corpus)).

(** [mixed(corpus, min_length=1, freq_min=2, freq_max=10000, stopwords=None)] *)
Definition mixed (corpus : Collection) (min_length : PyVal) (freq_min freq_max : Z)
    (stopwords : PyVal) : Result (list (list string)) :=
  found ← collected corpus freq_min freq_max;
  Ok (map (fun doc => _tokenize_mixed_document doc found min_length stopwords)
          (iterated corpus)).

End Tokenizers.

(** The number of times [np] occurs among [phrases]. *)
Fixpoint occurrences (np : string) (phrases : list string) : Z :=
  match phrases with
  | [] => 0
  | p :: rest => (if String.eqb p np then 1 else 0) + occurrences np rest
  end.

(** A sample noun-phrase extractor: the phrases of a text are the parts
    between its commas. *)
Fixpoint split_at_char (separator : ascii) (current text : string) : list string :=
  match text with
  | EmptyString => [current]
  | String c rest =>
      if Ascii.eqb c separator then current :: split_at_char separator EmptyString rest
      else split_at_char separator (current +:+ String c EmptyString) rest
  end.

Definition sample_phrases (text : string) : list string :=
  split_at_char "," EmptyString text.

End Entities.

(* ===================================================================== *)
(** ** What a caller observes of the corpus *)
(* ===================================================================== *)

Module Observed.

(** A keyword argument as [key=value]. *)
Definition item_text (kv : string * PyVal) : string :=
  fst kv +:+ "=" +:+ py_str (snd kv).

(** The document [import_from_iterable] stores for [item]: a string is
    wrapped under the hashed field. *)
Definition wrapped (field_to_hash : string) (item : PyVal) : PyVal :=
  match item with
  | VStr _ => VDict [(field_to_hash, item)]
  | _ => item
  end.

(** The corpus entry of [item]. *)
Definition stored (field_to_hash : string) (item : PyVal) : Obj :=
  OData (VDict [("_source", wrapped field_to_hash item)]).

(** An item that has the hashed field, with a hashable value. *)
Definition importable (field_to_hash : string) (item : PyVal) : bool :=
  match subscript (wrapped field_to_hash item) (VStr field_to_hash) with
  | Ok hashed => hashable hashed
  | Raise _ => false
  end.

(** The identifier of an importable item. *)
Definition identifier (py_hash : PyVal -> Z) (field_to_hash : string) (item : PyVal) : Key :=
  match subscript (wrapped field_to_hash item) (VStr field_to_hash) with
  | Ok hashed => KInt (py_hash hashed)
  | Raise _ => KNone
  end.

(** What [GreedyDict.__setitem__] stores for [value]: the list of its values
    for a generator, the value itself otherwise. *)
Definition materialized (value : Obj) (h : Heap) : Obj :=
  match value with
  | OIter r =>
      match h !! r with
      | Some st =>
          match iter_kind st with
          | GeneratorType => OData (VList (pending st))
          | OtherIterator => value
          end
      | None => value
      end
  | _ => value
  end.

(** What a table keeps for [value]: only a [GreedyDict] materializes. *)
Definition kept (table value : Obj) (h : Heap) : Obj :=
  match table with
  | ODict true _ => materialized value h
  | _ => value
  end.

(** The corpus after the documents of [items] were stored one by one, in
    order. *)
Definition stored_all (py_hash : PyVal -> Z) (field_to_hash : string) (items : list PyVal)
    (corpus : Items) : Items :=
  fold_left
    (fun c item => dict_set (identifier py_hash field_to_hash item) (stored field_to_hash item) c)
    items corpus.

End Observed.

(* ===================================================================== *)
(** ** Sample corpora *)
(* ===================================================================== *)

Module Samples.


(** Three documents, the second without a year. *)
Definition dated_entry : Key * Obj :=
  (KInt 1, OData (VDict [("_source", VDict [("text", VStr "cat"); ("year", VInt 2000)])])).
Definition undated_document : PyVal := VDict [("text", VStr "dog")].
Definition late_entry : Key * Obj :=
  (KInt 3, OData (VDict [("_source", VDict [("text", VStr "fish"); ("year", VInt 2001)])])).
Definition gap_entries : Items :=
  [dated_entry; (KInt 2, OData (VDict [("_source", undated_document)])); late_entry].

(** An output object holding [entries] as its corpus. *)
Definition output_of (entries : Items) : Attrs := <["corpus" := ODict true entries]> ∅.

End Samples.

(* ===================================================================== *)
(** * Facts *)
(* ===================================================================== *)

#[local] Arguments append !_ _ / : simpl nomatch.

(** ** [eval] reads back what [repr] writes *)

Module LiteralFacts.

Lemma app_assoc_s (a b c : string) : (a +:+ b) +:+ c = a +:+ (b +:+ c).
Proof. induction a as [|x a IH]; simpl; [reflexivity | rewrite IH; reflexivity]. Qed.































Section Contexts.
Variable P : string -> Result (Expr * string).





End Contexts.

#[local] Arguments parse_trailers : simpl never.
#[local] Arguments parse_chain : simpl never.
#[local] Arguments parse_items : simpl never.
#[local] Arguments parse_pairs : simpl never.
#[local] Arguments parse_atom : simpl never.
#[local] Arguments parse_operand : simpl never.
#[local] Arguments parse_comparison : simpl never.
#[local] Arguments parse_expr : simpl never.
#[local] Arguments lex_string : simpl never.
#[local] Arguments lex_number : simpl never.
#[local] Arguments skip_ws : simpl never.

Section Atoms.
Variable P : string -> Result (Expr * string).







End Atoms.

Section Displays.
Variable P : string -> Result (Expr * string).










(** Displays as atoms: whatever follows the closing bracket. *)








End Displays.















(** *** Evaluation of a literal *)





(** *** The text of a date filter *)

Section Steps.
Variable P : string -> Result (Expr * string).









End Steps.


Lemma append_empty_r s : s +:+ EmptyString = s.
Proof. induction s as [|c s IH]; cbn; [reflexivity | rewrite IH; reflexivity]. Qed.









(** *** [str.format] *)







End LiteralFacts.

(** ** Fingerprints *)

Module FingerprintFacts.
Import Fingerprint Rendering LiteralFacts.

Lemma compare_lt_trans a b c :
  String.compare a b = Lt -> String.compare b c = Lt -> String.compare a c = Lt.
Proof.
  intros H1 H2. apply String_as_OT.cmp_lt. eapply String_as_OT.lt_trans;
    apply String_as_OT.cmp_lt; eassumption.
Qed.

Lemma leb_false_lt a b : String.leb a b = false -> String.compare b a = Lt.
Proof.
  unfold String.leb. rewrite (String.compare_antisym b a).
  destruct (String.compare a b); cbn; congruence.
Qed.

Lemma leb_true_lt a b : String.leb a b = true -> a <> b -> String.compare a b = Lt.
Proof.
  unfold String.leb. destruct (String.compare a b) eqn:Hc; try congruence.
  intros _ Hne. apply String.compare_eq_iff in Hc. contradiction.
Qed.

#[local] Instance key_lt_antisym : AntiSymm eq key_lt.
Proof.
  intros x y H1 H2. unfold key_lt in *. rewrite String.compare_antisym, H1 in H2. discriminate.
Qed.

Lemma insert_item_perm kv l : Permutation (insert_item kv l) (kv :: l).
Proof.
  induction l as [|kv' l IH]; cbn; [reflexivity|].
  destruct (String.leb (fst kv) (fst kv')); [reflexivity|].
  rewrite IH. apply perm_swap.
Qed.

Lemma sorted_items_perm l : Permutation (sorted_items l) l.
Proof.
  induction l as [|kv l IH]; cbn; [reflexivity|].
  rewrite insert_item_perm. constructor. exact IH.
Qed.

Lemma insert_item_sorted kv l :
  StronglySorted key_lt l -> ~ In (fst kv) (map fst l) ->
  StronglySorted key_lt (insert_item kv l).
Proof.
  induction 1 as [|kv' l Hs IH Hall]; intros Hfresh; cbn.
  - repeat constructor.
  - cbn in Hfresh. destruct (String.leb (fst kv) (fst kv')) eqn:Hle.
    + assert (Hlt : key_lt kv kv') by (apply leb_true_lt; [exact Hle | intros Heq; apply Hfresh; auto]).
      constructor; [constructor; assumption|]. constructor; [exact Hlt|].
      eapply Forall_impl; [exact Hall|]. intros z Hz. eapply compare_lt_trans; eassumption.
    + constructor; [apply IH; tauto|].
      rewrite insert_item_perm.
      constructor; [apply leb_false_lt; exact Hle | exact Hall].
Qed.

Lemma sorted_items_sorted l :
  List.NoDup (map fst l) -> StronglySorted key_lt (sorted_items l).
Proof.
  induction l as [|kv l IH]; cbn; intros Hnd; [constructor|].
  inversion Hnd as [|? ? Hk Hrest]; subst.
  apply insert_item_sorted; [apply IH; exact Hrest|].
  intros Hin. apply Hk. eapply Permutation_in; [|exact Hin].
  apply Permutation_map. apply sorted_items_perm.
Qed.

(** [sorted] forgets the insertion order. *)
Lemma sorted_items_order l1 l2 :
  List.NoDup (map fst l1) -> Permutation l1 l2 -> sorted_items l1 = sorted_items l2.
Proof.
  intros Hnd Hp. apply (StronglySorted_unique key_lt).
  - apply sorted_items_sorted. exact Hnd.
  - apply sorted_items_sorted. eapply Permutation_NoDup; [|exact Hnd].
    apply Permutation_map. exact Hp.
  - rewrite !sorted_items_perm. exact Hp.
Qed.

(** *** Reading a fingerprint back *)

Lemma split_at c a b x y :
  contains_char c a = false -> contains_char c b = false ->
  a +:+ String c x = b +:+ String c y -> a = b /\ x = y.
Proof.
  revert b. induction a as [|d a IH]; intros [|e b] Ha Hb Heq; cbn in *.
  - injection Heq as ->. auto.
  - injection Heq as <- _. apply orb_false_iff in Hb as [Hb _].
    rewrite Ascii.eqb_refl in Hb. discriminate.
  - injection Heq as -> _. apply orb_false_iff in Ha as [Ha _].
    rewrite Ascii.eqb_refl in Ha. discriminate.
  - injection Heq as -> Heq. apply orb_false_iff in Ha as [_ Ha].
    apply orb_false_iff in Hb as [_ Hb]. destruct (IH b Ha Hb Heq) as [-> ->]. auto.
Qed.

Lemma format_item_shape kv rest :
  format_item kv +:+ rest = fst kv +:+ String "=" (py_str (snd kv) +:+ String "_" rest).
Proof. unfold format_item. rewrite !app_assoc_s. reflexivity. Qed.

Lemma format_item_nonempty kv rest : format_item kv +:+ rest <> EmptyString.
Proof. rewrite format_item_shape. destruct (fst kv); discriminate. Qed.

Lemma join_inj l1 l2 :
  separable l1 = true -> separable l2 = true ->
  join_empty (map format_item l1) = join_empty (map format_item l2) ->
  map rendered l1 = map rendered l2.
Proof.
  revert l2. induction l1 as [|kv l1 IH]; intros [|kv' l2] H1 H2 Heq; cbn [map join_empty] in *.
  - reflexivity.
  - symmetry in Heq. apply format_item_nonempty in Heq. contradiction.
  - apply format_item_nonempty in Heq. contradiction.
  - cbn [separable forallb] in H1, H2.
    apply andb_true_iff in H1 as [Hkv H1]. apply andb_true_iff in H2 as [Hkv' H2].
    apply andb_true_iff in Hkv as [Hk Hv]. apply andb_true_iff in Hkv' as [Hk' Hv'].
    apply negb_true_iff in Hk, Hv, Hk', Hv'.
    rewrite !format_item_shape in Heq.
    apply split_at in Heq as [Hkey Heq]; [|assumption|assumption].
    apply split_at in Heq as [Hval Heq]; [|assumption|assumption].
    unfold rendered at 1 3. rewrite Hkey, Hval. f_equal. apply IH; assumption.
Qed.

Lemma drop_last_cons d s :
  s <> EmptyString -> drop_last (String d s) = String d (drop_last s).
Proof. destruct s; [congruence | reflexivity]. Qed.

Lemma drop_last_snoc s c : drop_last (s +:+ String c EmptyString) = s.
Proof.
  induction s as [|d s IH]; [reflexivity|]. cbn [append].
  rewrite drop_last_cons, IH; [reflexivity|]. destruct s; discriminate.
Qed.

Lemma join_ends l :
  l <> [] ->
  exists x, join_empty (map format_item l) = x +:+ "_" /\ x <> EmptyString.
Proof.
  induction l as [|kv [|kv' l] IH]; intros Hne; [congruence | |].
  - exists (fst kv +:+ "=" +:+ py_str (snd kv)). cbn [map join_empty]. split.
    + rewrite append_empty_r. unfold format_item. rewrite !app_assoc_s. reflexivity.
    + destruct (fst kv); discriminate.
  - destruct (IH ltac:(discriminate)) as (x & Hx & _).
    exists (format_item kv +:+ x). split.
    + change (join_empty (map format_item (kv :: kv' :: l)))
        with (format_item kv +:+ join_empty (map format_item (kv' :: l))).
      rewrite Hx, app_assoc_s. reflexivity.
    + apply format_item_nonempty.
Qed.

Lemma drop_last_join_inj l1 l2 :
  drop_last (join_empty (map format_item l1)) = drop_last (join_empty (map format_item l2)) ->
  join_empty (map format_item l1) = join_empty (map format_item l2).
Proof.
  destruct l1 as [|a l1], l2 as [|b l2]; [reflexivity | | |].
  - destruct (join_ends (b :: l2) ltac:(discriminate)) as (x & -> & Hx).
    rewrite drop_last_snoc. cbn. congruence.
  - destruct (join_ends (a :: l1) ltac:(discriminate)) as (x & -> & Hx).
    rewrite drop_last_snoc. cbn. congruence.
  - destruct (join_ends (a :: l1) ltac:(discriminate)) as (x & -> & _).
    destruct (join_ends (b :: l2) ltac:(discriminate)) as (y & -> & _).
    rewrite !drop_last_snoc. congruence.
Qed.

Lemma separable_perm l1 l2 : Permutation l1 l2 -> separable l1 = true -> separable l2 = true.
Proof.
  unfold separable. intros Hp H. rewrite forallb_forall in *. intros x Hx. apply H.
  eapply Permutation_in; [symmetry; exact Hp | exact Hx].
Qed.

(** C4, amended.  For every method name and every two keyword mappings
    (distinct keys each): if one is the other in a different insertion order,
    their fingerprints are the same string; and if no key holds [=] and no
    printed value holds [_], equal fingerprints mean the same keys with the
    same printed values, so that mappings differing in a key or in the
    printed text of a value get different fingerprints. *)
Theorem fingerprint_order_and_separation method kw1 kw2 :
  List.NoDup (map fst kw1) -> List.NoDup (map fst kw2) ->
  (Permutation kw1 kw2 ->
   tokenize_parameter_string method kw1 = tokenize_parameter_string method kw2)
  /\ (separable kw1 = true -> separable kw2 = true ->
      tokenize_parameter_string method kw1 = tokenize_parameter_string method kw2 ->
      Permutation (map rendered kw1) (map rendered kw2)).
Proof.
  intros Hnd1 Hnd2. unfold tokenize_parameter_string, _get_parameters_string. split.
  - intros Hp. rewrite (sorted_items_order kw1 kw2) by assumption. reflexivity.
  - intros Hs1 Hs2 Heq.
    apply String.app_inj in Heq. apply String.app_inj in Heq. apply String.app_inj in Heq.
    apply drop_last_join_inj in Heq.
    apply join_inj in Heq.
    + rewrite <- (sorted_items_perm kw1), <- (sorted_items_perm kw2), Heq. reflexivity.
    + eapply separable_perm; [symmetry; apply sorted_items_perm | exact Hs1].
    + eapply separable_perm; [symmetry; apply sorted_items_perm | exact Hs2].
Qed.

Lemma fingerprint_order_and_separation_witness :
  List.NoDup (map fst [("b", VInt 2); ("a", VStr "x")])
  /\ List.NoDup (map fst [("a", VStr "x"); ("b", VInt 2)])
  /\ Permutation [("b", VInt 2); ("a", VStr "x")] [("a", VStr "x"); ("b", VInt 2)]
  /\ tokenize_parameter_string "simple" [("b", VInt 2); ("a", VStr "x")]
     = tokenize_parameter_string "simple" [("a", VStr "x"); ("b", VInt 2)]
  /\ separable [("b", VInt 2); ("a", VStr "x")] = true
  /\ Permutation (map rendered [("b", VInt 2); ("a", VStr "x")])
                 (map rendered [("a", VStr "x"); ("b", VInt 2)]).
Proof.
  assert (Hnd1 : List.NoDup (map fst [("b", VInt 2); ("a", VStr "x")])).
  { cbn. constructor; [intros [H | []]; discriminate H|]. constructor; [intros []|constructor]. }
  assert (Hnd2 : List.NoDup (map fst [("a", VStr "x"); ("b", VInt 2)])).
  { cbn. constructor; [intros [H | []]; discriminate H|]. constructor; [intros []|constructor]. }
  assert (Hp : Permutation [("b", VInt 2); ("a", VStr "x")] [("a", VStr "x"); ("b", VInt 2)])
    by apply perm_swap.
  destruct (fingerprint_order_and_separation "simple" _ _ Hnd1 Hnd2) as [Horder Hsep].
  split; [exact Hnd1|]. split; [exact Hnd2|]. split; [exact Hp|].
  split; [exact (Horder Hp)|]. split; [reflexivity|].
  exact (Hsep eq_refl eq_refl (Horder Hp)).
Defined.

(** Counterexample to C4 as stated: mappings that differ in a value, or in
    their keys, and have the same fingerprint. *)
Lemma fingerprint_collision :
  [("a", VInt 1)] <> [("a", VStr "1")]
  /\ tokenize_parameter_string "simple" [("a", VInt 1)]
     = tokenize_parameter_string "simple" [("a", VStr "1")]
  /\ [("a", VStr "1_b=2")] <> [("a", VStr "1"); ("b", VStr "2")]
  /\ tokenize_parameter_string "simple" [("a", VStr "1_b=2")]
     = tokenize_parameter_string "simple" [("a", VStr "1"); ("b", VStr "2")].
Proof. repeat split; discriminate. Qed.

End FingerprintFacts.

(** ** The registry *)

Module RegistryFacts.
Import Registry Fingerprint.

(** A new instance has no entry, whatever was registered before. *)
Lemma vectorize_finds_nothing corpus method kwargs p :
  fst (vectorize corpus method kwargs p) = Raise KeyError.
Proof.
  unfold vectorize, VectorizerRegistry, instance_getitem. cbn.
  rewrite lookup_insert_eq, lookup_empty. reflexivity.
Qed.

(** Attributes, unlike entries, are shared by all instances. *)
Lemma attributes_are_shared r1 r2 name value p :
  instance_getattr r2 name (instance_setattr r1 name value p) = Ok value.
Proof. unfold instance_getattr, instance_setattr. cbn. rewrite lookup_insert_eq. reflexivity. Qed.

(** C1 (code defect).  The claim wants a function registered through one
    registry instance to be found by dispatch through any other.  In the
    code, after [register] has added [f] under ["tfidf"] to
    [registered_vectorizers], looking it up there finds [f], while
    [vectorize], which builds a new [VectorizerRegistry()], raises
    [KeyError]: the instances share their attributes, not their entries. *)
Theorem vectorize_misses_registered_function (f : Fn) corpus kwargs :
  let registered_vectorizers := fst (VectorizerRegistry process_start) in
  let p1 := snd (VectorizerRegistry process_start) in
  let p2 := snd (_base_register_decorator registered_vectorizers "tfidf" f p1) in
  fst (_base_register_decorator registered_vectorizers "tfidf" f p1) = Ok tt
  /\ instance_getitem registered_vectorizers "tfidf" p2 = Ok f
  /\ fst (vectorize corpus "tfidf" kwargs p2) = Raise KeyError.
Proof.
  cbn zeta. split; [reflexivity|]. split; [|apply vectorize_finds_nothing].
  vm_compute. reflexivity.
Qed.

End RegistryFacts.

(** ** The in-memory store *)

Module StoreFacts.
Import LiteralFacts.





#[local] Abbreviation date_filter_of a b :=
  (VStr (decimal a +:+ "<=int({}['_source']['year'])<=" +:+ decimal b)).













(** *** The unfiltered view *)

Lemma unfiltered_loop_run field entries :
  evaluated (unfiltered_loop field entries) = []
  /\ forall pairs, every_pair field entries = Ok pairs ->
       yields (unfiltered_loop field entries) = pairs
       /\ outcome (unfiltered_loop field entries) = None.
Proof.
  induction entries as [|[doc_id doc] entries [IHe IHp]]; cbn [unfiltered_loop every_pair].
  - split; [reflexivity|]. intros pairs [= <-]. split; reflexivity.
  - destruct (selected_pair doc_id doc field) as [item|e]; cbn [mbind result_bind evaluated];
      [|split; [reflexivity | discriminate]].
    split; [exact IHe|]. intros pairs Hp.
    destruct (every_pair field entries) as [items|e]; [|discriminate].
    injection Hp as <-. destruct (IHp items eq_refl) as [Hy Ho].
    cbn [yields outcome]. rewrite Hy. auto.
Qed.





(** *** The filtered view *)

Lemma eval_selected_cons {I : Interpreter} self field filter entry entries :
  eval_selected self field filter (entry :: entries)
  = match verdict self field filter entry with
    | Ok true => entry :: eval_selected self field filter entries
    | _ => eval_selected self field filter entries
    end.
Proof.
  unfold eval_selected. cbn [List.filter].
  destruct (verdict self field filter entry) as [[]|]; reflexivity.
Qed.

Lemma filtered_loop_run {I : Interpreter} self field filter entries :
  let run := filtered_loop self field filter entries in
  exists visited rest texts,
    entries = visited ++ rest
    /\ filter_texts filter visited = Ok texts
    /\ Forall (fun entry => exists b, verdict self field filter entry = Ok b) visited
    /\ every_pair field (eval_selected self field filter visited) = Ok (yields run)
    /\ match outcome run with
       | None => rest = [] /\ evaluated run = texts
       | Some e =>
           exists entry rest' seen,
             rest = entry :: rest' /\ stopped self field filter entry e seen
             /\ evaluated run = texts ++ seen
       end.
Proof.
  cbn zeta. induction entries as [|[doc_id doc] entries IH].
  - exists [], [], []. cbn. repeat split; auto.
  - cbn [filtered_loop].
    destruct (filter_text filter doc) as [text|e] eqn:Htext.
    2:{ exists [], ((doc_id, doc) :: entries), []. cbn [app filter_texts outcome evaluated yields].
        repeat split; auto. exists (doc_id, doc), entries, []. repeat split; auto.
        left. auto. }
    set (frame := {| frame_self := self; frame_field_to_get := field; frame_filter := filter;
                     frame_doc_id := doc_id; frame_doc := doc |}).
    assert (Hverdict : verdict self field filter (doc_id, doc) = eval_text frame text).
    { unfold verdict. cbn [fst snd]. rewrite Htext. reflexivity. }
    destruct (eval_text frame text) as [b|e] eqn:Heval.
    2:{ exists [], ((doc_id, doc) :: entries), []. cbn [app filter_texts outcome evaluated yields].
        repeat split; auto. exists (doc_id, doc), entries, [text]. repeat split; auto.
        right. exists text. cbn [snd]. auto. }
    destruct IH as (visited & rest & texts & Hsplit & Htexts & Hall & Hpairs & Hend).
    assert (Hcons : filter_texts filter ((doc_id, doc) :: visited) = Ok (text :: texts)).
    { cbn [filter_texts]. rewrite Htext. cbn [mbind result_bind]. rewrite Htexts. reflexivity. }
    destruct b.
    + destruct (selected_pair doc_id doc field) as [item|e] eqn:Hsel.
      2:{ exists [], ((doc_id, doc) :: entries), [].
          cbn [app filter_texts outcome evaluated yields].
          repeat split; auto. exists (doc_id, doc), entries, [text]. repeat split; auto.
          right. exists text. cbn [fst snd]. auto. }
      exists ((doc_id, doc) :: visited), rest, (text :: texts).
      cbn [outcome evaluated yields]. rewrite eval_selected_cons, Hverdict.
      cbn [every_pair]. rewrite Hsel, Hpairs. cbn [mbind result_bind].
      split; [cbn [app]; congruence|]. split; [exact Hcons|].
      split; [constructor; eauto|]. split; [reflexivity|].
      destruct (outcome (filtered_loop self field filter entries)) as [e|].
      * destruct Hend as (entry & rest' & seen & -> & Hstop & ->). exists entry, rest', seen. auto.
      * destruct Hend as [-> ->]. auto.
    + exists ((doc_id, doc) :: visited), rest, (text :: texts).
      cbn [outcome evaluated yields]. rewrite eval_selected_cons, Hverdict.
      split; [cbn [app]; congruence|]. split; [exact Hcons|].
      split; [constructor; eauto|]. split; [exact Hpairs|].
      destruct (outcome (filtered_loop self field filter entries)) as [e|].
      * destruct Hend as (entry & rest' & seen & -> & Hstop & ->). exists entry, rest', seen. auto.
      * destruct Hend as [-> ->]. auto.
Qed.

(** C9, amended.  A filter that is empty or [None] is never evaluated.
    Every other filter is evaluated as code, whatever Python answers for it:
    the generator visits the corpus documents in order; for each one the text
    [filter.format(doc)] is handed to [eval], and the document is selected
    exactly when the result is true.  So the texts handed to [eval] are those
    of the documents visited, and the pairs yielded are those of the visited
    documents whose text evaluates to true.  The generator visits the whole
    corpus and ends normally, or it ends with the exception raised at the
    first document where [format] fails (nothing is evaluated for it), where
    the evaluation fails, or where the document is selected and lacks the
    field (its text has been evaluated). *)
Theorem filter_text_is_evaluated {I : Interpreter} self field filter entries :
  corpus_items self = Ok entries ->
  let run := get_filtered_data self field filter in
  (truthy filter = false -> evaluated run = [])
  /\ (truthy filter = true ->
      exists visited rest texts,
        entries = visited ++ rest
        /\ filter_texts filter visited = Ok texts
        /\ Forall (fun entry => exists b, verdict self field filter entry = Ok b) visited
        /\ every_pair field (eval_selected self field filter visited) = Ok (yields run)
        /\ match outcome run with
           | None => rest = [] /\ evaluated run = texts
           | Some e =>
               exists entry rest' seen,
                 rest = entry :: rest' /\ stopped self field filter entry e seen
                 /\ evaluated run = texts ++ seen
           end).
Proof.
  intros Hc. cbn zeta. unfold get_filtered_data. rewrite Hc. split.
  - intros ->. cbn [negb]. apply unfiltered_loop_run.
  - intros ->. cbn [negb]. apply filtered_loop_run.
Qed.

Lemma filter_text_is_evaluated_witness :
  let entries := [(KInt 97, OData (VDict [("_source", Scenario.doc_a)]));
                  (KInt 98, OData (VDict [("_source", Scenario.doc_b)]))] in
  let run := get_filtered_data (I := Scenario.names_doc_id) Scenario.loaded_output (VStr "text")
               (VStr "doc_id == 98") in
  corpus_items Scenario.loaded_output = Ok entries
  /\ py_eval "doc_id == 98" = Raise Unsupported
  /\ outcome run = None
  /\ evaluated run = ["doc_id == 98"; "doc_id == 98"]
  /\ yields run = [VTuple [VInt 98; VStr "cat fish"]]
  /\ exists visited rest texts,
       entries = visited ++ rest
       /\ filter_texts (I := Scenario.names_doc_id) (VStr "doc_id == 98") visited = Ok texts
       /\ every_pair (VStr "text")
            (eval_selected (I := Scenario.names_doc_id) Scenario.loaded_output (VStr "text")
               (VStr "doc_id == 98") visited)
          = Ok (yields run)
       /\ rest = [] /\ evaluated run = texts.
Proof.
  cbn zeta.
  assert (Hc : corpus_items Scenario.loaded_output
               = Ok [(KInt 97, OData (VDict [("_source", Scenario.doc_a)]));
                     (KInt 98, OData (VDict [("_source", Scenario.doc_b)]))])
    by (vm_compute; reflexivity).
  assert (Ho : outcome (get_filtered_data (I := Scenario.names_doc_id) Scenario.loaded_output
                          (VStr "text") (VStr "doc_id == 98")) = None)
    by (vm_compute; reflexivity).
  split; [exact Hc|]. split; [vm_compute; reflexivity|]. split; [exact Ho|].
  split; [vm_compute; reflexivity|]. split; [vm_compute; reflexivity|].
  destruct (filter_text_is_evaluated (I := Scenario.names_doc_id) Scenario.loaded_output
              (VStr "text") (VStr "doc_id == 98") _ Hc) as [_ Hrun].
  destruct (Hrun eq_refl) as (visited & rest & texts & Hsplit & Htexts & _ & Hpairs & Hend).
  rewrite Ho in Hend. exists visited, rest, texts. auto.
Defined.

(** Counterexample to C9 as stated: a text supplied by the caller, which
    names no field of any document, is handed to [eval] once per document,
    and what it evaluates to decides which documents are selected. *)
Lemma filter_text_reaches_eval :
  let always := get_filtered_data (I := Scenario.no_extension) Scenario.loaded_output
                  (VStr "text") (VStr "0<=1") in
  let never := get_filtered_data (I := Scenario.no_extension) Scenario.loaded_output
                 (VStr "text") (VStr "1<=0") in
  evaluated always = ["0<=1"; "0<=1"]
  /\ yields always = [VTuple [VInt 97; VStr "cat dog"]; VTuple [VInt 98; VStr "cat fish"]]
  /\ evaluated never = ["1<=0"; "1<=0"]
  /\ yields never = [].
Proof. vm_compute. repeat split. Qed.

(** *** [import_from_iterable] *)

Lemma dict_set_key_in k v items k' :
  In k' (map fst (dict_set k v items)) -> k' = k \/ In k' (map fst items).
Proof.
  induction items as [|[k0 v0] items IH]; cbn [dict_set map fst].
  - intros [<- | []]. auto.
  - destruct (decide (k0 = k)) as [->|Hne]; cbn [map fst]; intros [<- | H]; cbn; auto.
    destruct (IH H); auto.
Qed.

Lemma dict_set_nodup k v items :
  List.NoDup (map fst items) -> List.NoDup (map fst (dict_set k v items)).
Proof.
  induction items as [|[k0 v0] items IH]; cbn [dict_set map fst]; intros Hnd.
  - constructor; [intros [] | constructor].
  - inversion Hnd as [|? ? Hk Hrest]; subst.
    destruct (decide (k0 = k)) as [->|Hne]; cbn [map fst]; [exact Hnd|].
    constructor; [|apply IH; exact Hrest].
    intros Hin. apply dict_set_key_in in Hin as [-> | Hin]; [congruence | contradiction].
Qed.

Lemma dict_set_values k v items entry :
  In entry (dict_set k v items) -> entry = (k, v) \/ In entry items.
Proof.
  induction items as [|[k' v'] items IH]; cbn [dict_set].
  - intros [<- | []]. auto.
  - destruct (decide (k' = k)) as [->|Hne]; intros [<- | H]; cbn; auto.
    destruct (IH H); auto.
Qed.

(** The corpus [import_from_iterable] builds is a mapping: its identifiers
    are distinct, and each is the hash of the document stored under it. *)
Lemma import_loop_corpus py_hash field_to_hash items corpus corpus' :
  fst (import_loop py_hash field_to_hash items corpus) = Ok corpus' ->
  List.NoDup (map fst corpus) -> Forall (imported py_hash field_to_hash) corpus ->
  List.NoDup (map fst corpus') /\ Forall (imported py_hash field_to_hash) corpus'.
Proof.
  revert corpus. induction items as [|item items IH]; intros corpus Hrun Hnd Hall;
    cbn [import_loop] in Hrun.
  - injection Hrun as <-. auto.
  - destruct (import_item py_hash field_to_hash item corpus) as [corpus1|e] eqn:Hitem;
      [|discriminate].
    apply (IH corpus1 Hrun); unfold import_item in Hitem;
      set (doc := match item with VStr _ => VDict [(field_to_hash, item)] | _ => item end) in *;
      destruct (subscript doc (VStr field_to_hash)) as [hashed|] eqn:Hsub;
      cbn [mbind result_bind] in Hitem; try discriminate;
      destruct (hashable hashed); try discriminate; injection Hitem as <-.
    + apply dict_set_nodup. exact Hnd.
    + apply List.Forall_forall. intros entry Hin.
      apply dict_set_values in Hin as [-> | Hin].
      * exists doc, hashed. auto.
      * rewrite List.Forall_forall in Hall. auto.
Qed.

(** *** [GreedyDict] *)

Lemma dict_get_set k v items : dict_get k (dict_set k v items) = Some v.
Proof.
  induction items as [|[k' v'] items IH]; cbn.
  - rewrite decide_True by reflexivity. reflexivity.
  - destruct (decide (k' = k)) as [->|Hne]; cbn.
    + rewrite decide_True by reflexivity. reflexivity.
    + rewrite decide_False by assumption. exact IH.
Qed.

Lemma dict_get_set_ne k k' v items : k <> k' -> dict_get k' (dict_set k v items) = dict_get k' items.
Proof.
  intros Hne. induction items as [|[k0 v0] items IH]; cbn.
  - rewrite decide_False by assumption. reflexivity.
  - destruct (decide (k0 = k)) as [->|Hne0]; cbn.
    + rewrite !decide_False by assumption. reflexivity.
    + destruct (decide (k0 = k')); [reflexivity | exact IH].
Qed.

(** C3, amended.  For every generator object that ends normally, assigning
    it into a [GreedyDict] consumes it before the call returns and stores the
    list of its values under the key; reading the stored artifact twice gives
    the same values both times, in the same order.  Any other value, another
    one-shot iterator included, is stored under the key as it is, and no
    iterator is consumed. *)
Theorem generator_is_materialized items key r st h :
  h !! r = Some st -> iter_kind st = GeneratorType -> failure st = None ->
  (exists items' h',
     GreedyDict_setitem items key (OIter r) h = (Ok items', h')
     /\ h' !! r = Some (exhausted st)
     /\ exists stored,
          dict_get key items' = Some stored
          /\ iterate stored h' = (Ok (pending st), h')
          /\ iterate stored (snd (iterate stored h')) = (Ok (pending st), h'))
  /\ forall value,
       match value with
       | OIter r' => exists st', h !! r' = Some st' /\ iter_kind st' = OtherIterator
       | _ => True
       end ->
       exists items',
         GreedyDict_setitem items key value h = (Ok items', h)
         /\ dict_get key items' = Some value.
Proof.
  intros Hr Hk Hf. split.
  - unfold GreedyDict_setitem. rewrite Hr, Hk, Hf.
    eexists _, _. split; [reflexivity|]. split; [apply lookup_insert_eq|].
    exists (OData (VList (pending st))). split; [apply dict_get_set|]. split; reflexivity.
  - intros value Hother. exists (dict_set key value items). split; [|apply dict_get_set].
    unfold GreedyDict_setitem. destruct value as [v | greedy its | r']; try reflexivity.
    destruct Hother as (st' & -> & ->). reflexivity.
Qed.

Lemma generator_is_materialized_witness :
  let st := {| iter_kind := GeneratorType; pending := [VInt 1; VInt 2]; failure := None |} in
  let h : Heap := {[ 0%nat := st ]} in
  h !! 0%nat = Some st
  /\ exists items' h',
       GreedyDict_setitem [] (KStr "tk_simple_") (OIter 0%nat) h = (Ok items', h')
       /\ dict_get (KStr "tk_simple_") items' = Some (OData (VList [VInt 1; VInt 2])).
Proof.
  cbn zeta.
  assert (Hr : ({[ 0%nat := {| iter_kind := GeneratorType; pending := [VInt 1; VInt 2];
                               failure := None |} ]} : Heap) !! 0%nat
               = Some {| iter_kind := GeneratorType; pending := [VInt 1; VInt 2];
                         failure := None |}) by reflexivity.
  split; [exact Hr|].
  destruct (generator_is_materialized [] (KStr "tk_simple_") 0%nat _ _ Hr eq_refl eq_refl)
    as [(items' & h' & Hset & _ & stored & Hget & Hread & _) _].
  exists items', h'. split; [exact Hset|].
  injection Hset as <- _. reflexivity.
Defined.

(** Counterexample to C3 as stated: a one-shot iterator that is not a
    generator object is stored as it is; the first read of the stored
    artifact gives its values, the second read gives nothing. *)
Lemma other_iterator_is_stored_lazy :
  let st := {| iter_kind := OtherIterator; pending := [VInt 1; VInt 2]; failure := None |} in
  let h : Heap := {[ 0%nat := st ]} in
  let r := GreedyDict_setitem [] (KStr "tk_simple_") (OIter 0%nat) h in
  fst r = Ok [(KStr "tk_simple_", OIter 0%nat)]
  /\ fst (iterate (OIter 0%nat) (snd r)) = Ok [VInt 1; VInt 2]
  /\ fst (iterate (OIter 0%nat) (snd (iterate (OIter 0%nat) (snd r)))) = Ok [].
Proof. vm_compute. repeat split. Qed.

End StoreFacts.

(** ** The project *)

Module ProjectFacts.
Import Scenario Project Fingerprint.

(** *** Selection *)

Lemma select_in_keeps container attribute id w :
  output (snd (select_in container attribute id w)) = output w
  /\ heap (snd (select_in container attribute id w)) = heap w
  /\ forall name, name <> attribute ->
       self (snd (select_in container attribute id w)) !! name = self w !! name.
Proof.
  unfold select_in. destruct (c ← container; obj_contains c id) as [[]|e]; cbn; auto.
  repeat split. intros name Hne. apply lookup_insert_ne. congruence.
Qed.

Lemma selected_data_ext table pointer w w' :
  output w' = output w -> self w' !! pointer = self w !! pointer ->
  selected_data table pointer w' = selected_data table pointer w.
Proof. intros Ho Hp. unfold selected_data, getattr. rewrite Ho, Hp. reflexivity. Qed.

(** No [select_*] call changes what the data properties resolve. *)
Lemma select_leaves_properties id w :
  tokenized_data (snd (select_tokenized_data id w)) = tokenized_data w
  /\ vectorized_data (snd (select_vectorized_data id w)) = vectorized_data w
  /\ model_output (snd (select_model_data id w)) = model_output w.
Proof.
  unfold tokenized_data, vectorized_data, model_output,
    select_tokenized_data, select_vectorized_data, select_model_data.
  repeat split; apply selected_data_ext;
    try apply select_in_keeps; discriminate.
Qed.

(** A project has no attribute [tokenizer_ids] unless a caller adds one. *)
Lemma select_tokenized_data_raises id w :
  self w !! "tokenizer_ids" = None ->
  select_tokenized_data id w = (Raise AttributeError, w).
Proof.
  intros H. unfold select_tokenized_data, select_in, getattr. rewrite H. reflexivity.
Qed.

(** C2 (code defect).  The claim wants a successful [select_*_data(id)] to
    make the data property resolve the artifact stored under [id].  In the
    code, on a project whose vectorizer selection is ["a"],
    [select_vectorized_data("b")] succeeds and assigns
    [self.selected_vectorizer]; [self._vectorizer_id] is still ["a"] and the
    property [vectorized_data] still resolves the artifact of ["a"], not the
    one stored under ["b"].  [select_tokenized_data] reads
    [self.tokenizer_ids], which no project has, and raises [AttributeError]
    for an id that is in the table. *)
Theorem select_vectorized_data_keeps_old_artifact :
  let w' := snd (select_vectorized_data (VStr "b") vectorized_project) in
  fst (select_vectorized_data (VStr "b") vectorized_project) = Ok tt
  /\ self w' !! "selected_vectorizer" = Some (OData (VStr "b"))
  /\ self w' !! "_vectorizer_id" = Some (OData (VStr "a"))
  /\ vectorized_data w' = Ok (OData (VList [VInt 1]))
  /\ obj_subscript (ODict true [(KStr "a", OData (VList [VInt 1]));
                                (KStr "b", OData (VList [VInt 2]))]) (VStr "b")
     = Ok (OData (VList [VInt 2]))
  /\ select_tokenized_data (VStr "tk_simple_") tokenized_project
     = (Raise AttributeError, tokenized_project).
Proof. vm_compute. repeat split. Qed.

(** *** [read_input] *)

(** C6 (code defect).  The claim wants [read_input] to store the reader's
    documents through [import_from_iterable], so that the corpus is a mapping
    keyed by [hash(document[hash_field])].  In the code the reader's result
    is assigned to [self.output.corpus] as it is: for a reader that returns
    a list of two documents the corpus attribute is that list, which has no
    [items()], so every filtered view of it raises; [import_from_iterable] on
    the same documents builds the mapping the claim describes. *)
Theorem read_input_bypasses_import {I : Interpreter} :
  let w' := snd (read_input list_reader VNone (VStr "id") (VStr "auto") []
                   (fresh_project (ODict true []))) in
  output w' !! "corpus" = Some (OData (VList [doc_a; doc_b]))
  /\ corpus_items (output w') = Raise AttributeError
  /\ get_filtered_data (output w') (VStr "text") (VStr EmptyString) = Fail AttributeError
  /\ loaded_output !! "corpus"
     = Some (ODict true [(KInt (toy_hash (VStr "a")), OData (VDict [("_source", doc_a)]));
                         (KInt (toy_hash (VStr "b")), OData (VDict [("_source", doc_b)]))]).
Proof. vm_compute. repeat split. Qed.

(** Whatever the reader returns becomes the corpus attribute, as it is. *)
Lemma read_input_assigns reader source content_field source_type kwargs w corpus h :
  reader source content_field source_type kwargs (heap w) = (Ok corpus, h) ->
  output (snd (read_input reader source content_field source_type kwargs w)) !! "corpus"
  = Some corpus.
Proof. intros H. unfold read_input. rewrite H. cbn. apply lookup_insert_eq. Qed.

(** *** [tokenize] *)

Lemma store_and_select_other table pointer fingerprint value w name :
  name <> table ->
  output (snd (store_and_select table pointer fingerprint value w)) !! name = output w !! name.
Proof.
  intros Hne. unfold store_and_select. destruct (getattr (output w) table); [|reflexivity].
  destruct (obj_setitem _ _ _ _) as [[|] ?]; cbn; [|reflexivity].
  apply lookup_insert_ne. congruence.
Qed.

(** [tokenize] never writes to the table the property [tokenized_data] reads. *)
Lemma tokenize_leaves_tokenized_data {I : Interpreter} tokenizer method kwargs w :
  output (snd (tokenize tokenizer method kwargs w)) !! "tokenized_data"
  = output w !! "tokenized_data".
Proof.
  unfold tokenize, filtered_corpus.
  destruct (getattr (self w) "corpus_filter") as [[corpus_filter| |]|]; try reflexivity.
  destruct (call_generator _ _) as [generator h] eqn:Hg. cbn [with_heap].
  destruct (tokenizer generator method kwargs _) as [[tokenized|e] h']; [|reflexivity].
  rewrite store_and_select_other by discriminate. reflexivity.
Qed.

(** C7 (code defect).  The claim wants [tokenize] to apply the method to
    the filtered corpus and to store the result where the property
    [tokenized_data] reads it.  In the code the corpus filter ([None]) is
    passed as [field_to_get], so on the scenario corpus the sequence handed
    to the tokenizer raises [KeyError] at its first document, nothing is
    stored and the pointer stays unset; and on an empty corpus, where the
    call succeeds, the artifact is stored under ["tk_simple_"] in
    [self.output.token_data] while [tokenized_data] reads
    [self.output.tokenized_data] and raises [KeyError]. *)
Theorem tokenize_artifact_not_readable {I : Interpreter} :
  get_filtered_data (output (fresh_project scenario_corpus)) VNone (VStr EmptyString)
    = Fail KeyError
  /\ (let r := tokenize lazy_stage "simple" [] (fresh_project scenario_corpus) in
      fst r = Raise KeyError
      /\ self (snd r) !! "_tokenizer_id" = Some (OData VNone)
      /\ output (snd r) !! "token_data" = Some (ODict true []))
  /\ (let r := tokenize lazy_stage "simple" [] (fresh_project (ODict true [])) in
      fst r = Ok tt
      /\ self (snd r) !! "_tokenizer_id" = Some (OData (VStr "tk_simple_"))
      /\ output (snd r) !! "token_data"
         = Some (ODict true [(KStr "tk_simple_", OData (VList []))])
      /\ output (snd r) !! "tokenized_data" = Some (ODict true [])
      /\ tokenized_data (snd r) = Raise KeyError).
Proof. vm_compute. repeat split. Qed.

(** *** [transform] *)

(** [transform] reads [self.tokenizer_id], which no project has: it stores
    nothing and moves no pointer. *)
Lemma transform_raises transformer method kwargs w :
  self w !! "tokenizer_id" = None ->
  (exists e, fst (transform transformer method kwargs w) = Raise e)
  /\ self (snd (transform transformer method kwargs w)) = self w
  /\ output (snd (transform transformer method kwargs w)) = output w.
Proof.
  intros H. unfold transform. destruct (transformer method kwargs (heap w)) as [[transformed|e] h].
  - unfold getattr. cbn [with_heap self]. rewrite H. cbn. eauto.
  - cbn. eauto.
Qed.

(** C8 (code defect).  The claim wants [transform] to work on the artifact
    selected under [P] and to store its result under the fingerprint chained
    onto [P].  In the code, on a project whose tokenizer selection is
    ["tk_simple_"], [transform] raises for every stage function: the prior
    fingerprint is read from [self.tokenizer_id], which does not exist (the
    pointer is [self._tokenizer_id]), so a stage function that returns
    normally is followed by [AttributeError]; the pointer and the tokenized
    table are left as they were. *)
Theorem transform_never_chains transformer method kwargs :
  let r := transform transformer method kwargs tokenized_project in
  (exists e, fst r = Raise e)
  /\ self (snd r) !! "_tokenizer_id" = Some (OData (VStr "tk_simple_"))
  /\ output (snd r) !! "tokenized_data" = output tokenized_project !! "tokenized_data"
  /\ fst (transform (fun _ _ h => (Ok (OData (VList [])), h)) method kwargs tokenized_project)
     = Raise AttributeError.
Proof.
  cbn zeta.
  destruct (transform_raises transformer method kwargs tokenized_project eq_refl)
    as (He & Hs & Ho).
  split; [exact He|]. rewrite Hs, Ho. repeat split.
Qed.

End ProjectFacts.

Module CorpusFacts.
Import LiteralFacts FingerprintFacts StoreFacts Fingerprint Observed.

Lemma format_item_text kv : format_item kv = item_text kv +:+ "_".
Proof. unfold format_item, item_text. rewrite !app_assoc_s. reflexivity. Qed.

Lemma item_text_nonempty kv rest : item_text kv +:+ rest <> EmptyString.
Proof.
  unfold item_text. rewrite app_assoc_s. destruct (fst kv); discriminate.
Qed.

Lemma drop_last_append s t : t <> EmptyString -> drop_last (s +:+ t) = s +:+ drop_last t.
Proof.
  intros Ht. induction s as [|c s IH]; [reflexivity|]. cbn [append].
  rewrite drop_last_cons, IH; [reflexivity|].
  destruct s; [exact Ht | discriminate].
Qed.

Lemma drop_last_items l :
  drop_last (join_empty (map format_item l)) = join_underscore (map item_text l).
Proof.
  induction l as [|kv [|kv' l] IH]; [reflexivity | |].
  - cbn [map join_empty join_underscore]. rewrite append_empty_r, format_item_text.
    apply drop_last_snoc.
  - change (join_empty (map format_item (kv :: kv' :: l)))
      with (format_item kv +:+ join_empty (map format_item (kv' :: l))).
    change (join_underscore (map item_text (kv :: kv' :: l)))
      with (item_text kv +:+ "_" +:+ join_underscore (map item_text (kv' :: l))).
    rewrite drop_last_append, IH, format_item_text, app_assoc_s; [reflexivity|].
    cbn [map join_empty]. apply format_item_nonempty.
Qed.

(** X1.  For keyword arguments with distinct names,
    [_get_parameters_string] is [key=value] for every argument, in ascending
    order of the names, joined by single underscores: no delimiter is left
    at the end. *)
Theorem parameters_string_is_joined kwargs :
  List.NoDup (map fst kwargs) ->
  _get_parameters_string kwargs = join_underscore (map item_text (sorted_items kwargs))
  /\ StronglySorted Rendering.key_lt (sorted_items kwargs)
  /\ Permutation (sorted_items kwargs) kwargs.
Proof.
  intros Hnd. split; [apply drop_last_items|].
  split; [apply sorted_items_sorted; exact Hnd | apply sorted_items_perm].
Qed.

Lemma parameters_string_is_joined_witness :
  _get_parameters_string [("min_length", VInt 2); ("freq_min", VInt 5)]
  = "freq_min=5_min_length=2".
Proof.
  destruct (parameters_string_is_joined [("min_length", VInt 2); ("freq_min", VInt 5)])
    as [H _].
  - repeat constructor; cbn; intuition discriminate.
  - rewrite H. vm_compute. reflexivity.
Defined.

(** *** [import_from_iterable] *)

Section Importing.

Variable py_hash : PyVal -> Z.
Variable field : string.

Lemma import_item_importable item corpus :
  importable field item = true ->
  import_item py_hash field item corpus
  = Ok (dict_set (identifier py_hash field item) (stored field item) corpus).
Proof.
  unfold importable, import_item, identifier, stored, wrapped.
  destruct (subscript _ (VStr field)) as [hashed|]; [|discriminate].
  cbn [mbind result_bind]. intros ->. reflexivity.
Qed.

#[local] Abbreviation stored_all := (Observed.stored_all py_hash field).

Lemma stored_all_cons item items corpus :
  stored_all (item :: items) corpus
  = stored_all items (dict_set (identifier py_hash field item) (stored field item) corpus).
Proof. reflexivity. Qed.

Lemma import_loop_importable items corpus :
  forallb (importable field) items = true ->
  import_loop py_hash field items corpus
  = (Ok (stored_all items corpus), stored_all items corpus).
Proof.
  revert corpus. induction items as [|item items IH]; intros corpus Hall; [reflexivity|].
  cbn [forallb] in Hall. apply andb_true_iff in Hall as [Hi Hall].
  cbn [import_loop]. rewrite import_item_importable by exact Hi.
  rewrite IH by exact Hall. reflexivity.
Qed.

Lemma dict_set_length k v items :
  (length items <= length (dict_set k v items) <= S (length items))%nat.
Proof.
  induction items as [|[k0 v0] items IH]; cbn [dict_set length]; [lia|].
  destruct (decide (k0 = k)); cbn [length]; lia.
Qed.

Lemma stored_all_length items corpus :
  (length corpus <= length (stored_all items corpus) <= length corpus + length items)%nat.
Proof.
  revert corpus. induction items as [|item items IH]; intros corpus;
    [cbn; lia|].
  rewrite stored_all_cons.
  specialize (IH (dict_set (identifier py_hash field item) (stored field item) corpus)).
  pose proof (dict_set_length (identifier py_hash field item) (stored field item) corpus).
  cbn [length]. lia.
Qed.

Lemma stored_all_other items corpus k :
  Forall (fun item => identifier py_hash field item <> k) items ->
  dict_get k (stored_all items corpus) = dict_get k corpus.
Proof.
  revert corpus. induction items as [|item items IH]; intros corpus Hall; [reflexivity|].
  inversion Hall as [|? ? Hne Hrest]; subst. rewrite stored_all_cons.
  rewrite IH by exact Hrest. apply dict_get_set_ne. exact Hne.
Qed.

Lemma stored_all_app items items' corpus :
  stored_all (items ++ items') corpus = stored_all items' (stored_all items corpus).
Proof. unfold Observed.stored_all. apply fold_left_app. Qed.

Lemma stored_all_last before item after corpus :
  Forall (fun later => identifier py_hash field later <> identifier py_hash field item) after ->
  dict_get (identifier py_hash field item) (stored_all (before ++ item :: after) corpus)
  = Some (stored field item).
Proof.
  intros Hafter. rewrite stored_all_app, stored_all_cons.
  rewrite stored_all_other by exact Hafter. apply dict_get_set.
Qed.

Lemma dict_set_new k v items :
  ~ In k (map fst items) -> dict_set k v items = items ++ [(k, v)].
Proof.
  induction items as [|[k0 v0] items IH]; cbn [dict_set map fst app]; intros Hk; [reflexivity|].
  destruct (decide (k0 = k)) as [->|Hne]; [exfalso; apply Hk; left; reflexivity|].
  rewrite IH; [reflexivity|]. intros Hin. apply Hk. right. exact Hin.
Qed.

Lemma stored_all_distinct items corpus :
  List.NoDup (map fst corpus ++ map (identifier py_hash field) items) ->
  stored_all items corpus
  = corpus ++ map (fun item => (identifier py_hash field item, stored field item)) items.
Proof.
  revert corpus. induction items as [|item items IH]; intros corpus Hnd.
  - cbn. rewrite app_nil_r. reflexivity.
  - rewrite stored_all_cons. cbn [map].
    assert (Hnew : ~ In (identifier py_hash field item) (map fst corpus)).
    { intros Hin. cbn [map] in Hnd. apply NoDup_remove_2 in Hnd. apply Hnd.
      apply in_or_app. left. exact Hin. }
    rewrite dict_set_new by exact Hnew. rewrite IH.
    + rewrite <- app_assoc. reflexivity.
    + rewrite map_app. cbn [map fst]. rewrite <- app_assoc. exact Hnd.
Qed.

End Importing.

Lemma import_from_iterable_list py_hash self items field h corpus :
  field <> EmptyString ->
  self !! "corpus" = Some (ODict true corpus) ->
  forallb (importable field) items = true ->
  import_from_iterable py_hash self (OData (VList items)) (VStr field) h
  = (Ok tt,
     <["corpus" := ODict true (stored_all py_hash field items corpus)]>
       (<["hash_field" := OData (VStr field)]> self),
     h).
Proof.
  intros Hf Hc Hall. unfold import_from_iterable.
  assert (Ht : truthy (VStr field) = true) by (destruct field; [congruence | reflexivity]).
  rewrite Ht. cbn [supply iterate fst drained].
  destruct items as [|item items].
  - cbn [stored_all fold_left]. f_equal. f_equal. symmetry. apply insert_id.
    rewrite lookup_insert_ne by discriminate. exact Hc.
  - rewrite lookup_insert_ne by discriminate. rewrite Hc.
    rewrite import_loop_importable by exact Hall. reflexivity.
Qed.

(** X2.  Importing a list of items that all have the hashed field, with a
    hashable value, succeeds and leaves the iterators alone.  Afterwards the
    corpus is a mapping with distinct identifiers, each the hash of the
    hashed field of the document wrapped under ["_source"]; it has grown by
    at most one entry per item; and every item's document is stored under
    the item's identifier unless a later item has the same identifier, in
    which case the later one has replaced it. *)
Theorem import_from_iterable_stores py_hash self items field h corpus :
  field <> EmptyString ->
  self !! "corpus" = Some (ODict true corpus) ->
  forallb (importable field) items = true ->
  List.NoDup (map fst corpus) ->
  Forall (imported py_hash field) corpus ->
  exists corpus',
    import_from_iterable py_hash self (OData (VList items)) (VStr field) h
    = (Ok tt,
       <["corpus" := ODict true corpus']> (<["hash_field" := OData (VStr field)]> self), h)
    /\ List.NoDup (map fst corpus')
    /\ Forall (imported py_hash field) corpus'
    /\ (length corpus <= length corpus' <= length corpus + length items)%nat
    /\ forall before item after,
         items = before ++ item :: after ->
         Forall (fun later => identifier py_hash field later <> identifier py_hash field item)
                after ->
         dict_get (identifier py_hash field item) corpus' = Some (stored field item).
Proof.
  intros Hf Hc Hall Hnd Himp. exists (stored_all py_hash field items corpus).
  split; [apply import_from_iterable_list; assumption|].
  destruct (import_loop_corpus py_hash field items corpus (stored_all py_hash field items corpus))
    as [Hnd' Himp']; try assumption.
  { rewrite import_loop_importable by exact Hall. reflexivity. }
  split; [exact Hnd'|]. split; [exact Himp'|]. split; [apply stored_all_length|].
  intros before item after -> Hafter. apply stored_all_last. exact Hafter.
Qed.

Lemma import_from_iterable_stores_witness :
  exists corpus',
    import_from_iterable Scenario.toy_hash (<["corpus" := ODict true []]> ∅)
      (OData (VList [Scenario.doc_a; Scenario.doc_b; Scenario.doc_a])) (VStr "id") ∅
    = (Ok tt,
       <["corpus" := ODict true corpus']>
         (<["hash_field" := OData (VStr "id")]> (<["corpus" := ODict true []]> ∅)), ∅)
    /\ (length corpus' <= 3)%nat
    /\ dict_get (KInt 98) corpus' = Some (OData (VDict [("_source", Scenario.doc_b)])).
Proof.
  destruct (import_from_iterable_stores Scenario.toy_hash (<["corpus" := ODict true []]> ∅)
              [Scenario.doc_a; Scenario.doc_b; Scenario.doc_a] "id" ∅ [])
    as (corpus' & Hrun & _ & _ & Hlen & Hget).
  - discriminate.
  - reflexivity.
  - vm_compute. reflexivity.
  - constructor.
  - constructor.
  - exists corpus'. split; [exact Hrun|]. split; [exact (proj2 Hlen)|].
    apply (Hget [Scenario.doc_a] Scenario.doc_b [Scenario.doc_a] eq_refl).
    repeat constructor. vm_compute. discriminate.
Defined.


Lemma NoDup_map_KInt zs : List.NoDup zs -> List.NoDup (map KInt zs).
Proof.
  induction 1 as [|z zs Hz Hnd IH]; cbn [map]; constructor; [|exact IH].
  intros Hin. apply in_map_iff in Hin as (z' & [= ->] & Hin). contradiction.
Qed.

Lemma subscript_own_field field v rest :
  subscript (VDict ((field, v) :: rest)) (VStr field) = Ok v.
Proof. cbn. rewrite String.eqb_refl. reflexivity. Qed.

(** X3.  An iterable given without a usable hash field ([None], the
    constructor's default, or the empty string) is rejected with
    [ValueError], by [import_from_iterable] and by the constructor alike:
    the iterable is not read, and the output keeps the attributes it had
    (the constructor has set the empty corpus by then, and none of the
    tables). *)
Theorem hash_field_is_required py_hash self base iterable field tables1 tables2 tables3 h :
  truthy field = false ->
  truthy_obj iterable = true ->
  import_from_iterable py_hash self iterable field h = (Raise ValueError, self, h)
  /\ InMemoryOutput_init py_hash base iterable field tables1 tables2 tables3 h
     = (Raise ValueError, <["corpus" := ODict true []]> base, h).
Proof.
  intros Hf Hi. unfold InMemoryOutput_init, import_from_iterable. rewrite Hf, Hi. auto.
Qed.

Lemma hash_field_is_required_witness :
  InMemoryOutput_init Scenario.toy_hash ∅ (OData (VList [Scenario.doc_a])) VNone
    (OData VNone) (OData VNone) (OData VNone) ∅
  = (Raise ValueError, <["corpus" := ODict true []]> ∅, ∅).
Proof.
  apply (hash_field_is_required Scenario.toy_hash ∅ ∅ (OData (VList [Scenario.doc_a])) VNone
           (OData VNone) (OData VNone) (OData VNone) ∅); reflexivity.
Defined.

(** X4.  Handing the constructor a corpus mapping as the iterable (the
    object [save] files under ["iterable"]) raises [TypeError] as soon as the
    mapping has an entry under an integer identifier first: iterating a
    mapping gives its identifiers, and an integer has no fields.  Nothing is
    imported and no table is set. *)
Theorem corpus_mapping_is_not_an_iterable py_hash base greedy z doc rest field
    tables1 tables2 tables3 h :
  field <> EmptyString ->
  InMemoryOutput_init py_hash base (ODict greedy ((KInt z, doc) :: rest)) (VStr field)
    tables1 tables2 tables3 h
  = (Raise TypeError,
     <["corpus" := ODict true []]>
       (<["hash_field" := OData (VStr field)]> (<["corpus" := ODict true []]> base)),
     h).
Proof.
  intros Hf. unfold InMemoryOutput_init, import_from_iterable.
  assert (Ht : truthy (VStr field) = true) by (destruct field; [congruence | reflexivity]).
  cbn [truthy_obj]. rewrite Ht. cbn [iterate map fst key_val].
  rewrite lookup_insert_ne by discriminate. rewrite lookup_insert_eq.
  reflexivity.
Qed.

Lemma corpus_mapping_is_not_an_iterable_witness :
  fst (fst (InMemoryOutput_init Scenario.toy_hash ∅ Scenario.scenario_corpus (VStr "id")
              (OData VNone) (OData VNone) (OData VNone) ∅))
  = Raise TypeError.
Proof.
  unfold Scenario.scenario_corpus.
  rewrite (corpus_mapping_is_not_an_iterable Scenario.toy_hash ∅ true 97) by discriminate.
  reflexivity.
Defined.

Lemma unfiltered_texts py_hash field texts :
  every_pair (VStr field)
    (map (fun item => (identifier py_hash field item, stored field item)) (map VStr texts))
  = Ok (map (fun t => VTuple [VInt (py_hash (VStr t)); VStr t]) texts).
Proof.
  induction texts as [|t texts IH]; [reflexivity|].
  cbn [map every_pair]. rewrite IH.
  unfold identifier, stored, wrapped, selected_pair, obj_subscript.
  rewrite subscript_own_field. cbn [mbind result_bind subscript field_lookup String.eqb Ascii.eqb].
  cbn. rewrite String.eqb_refl. reflexivity.
Qed.

Lemma every_pair_perm field entries entries' :
  Permutation entries entries' ->
  forall pairs, every_pair field entries = Ok pairs ->
  exists pairs', every_pair field entries' = Ok pairs' /\ Permutation pairs pairs'.
Proof.
  induction 1 as [|[doc_id doc] l l' Hperm IH|[id1 doc1] [id2 doc2] l|l l' l'' _ IH1 _ IH2];
    intros pairs.
  - intros [= <-]. exists []. auto.
  - cbn [every_pair]. destruct (selected_pair doc_id doc field) as [item|]; [|discriminate].
    cbn [mbind result_bind]. destruct (every_pair field l) as [items|]; [|discriminate].
    intros [= <-]. destruct (IH _ eq_refl) as (items' & -> & Hp).
    exists (item :: items'). split; [reflexivity|]. constructor. exact Hp.
  - cbn [every_pair]. destruct (selected_pair id1 doc1 field) as [item1|];
      destruct (selected_pair id2 doc2 field) as [item2|]; cbn [mbind result_bind];
      try discriminate; destruct (every_pair field l) as [items|]; try discriminate.
    intros [= <-]. exists (item1 :: item2 :: items). split; [reflexivity|]. constructor.
  - intros Hp. destruct (IH1 _ Hp) as (pairs' & Hp' & Hperm1).
    destruct (IH2 _ Hp') as (pairs'' & Hp'' & Hperm2).
    exists pairs''. split; [exact Hp''|]. etransitivity; eassumption.
Qed.

(** X5.  A list of strings given to the constructor with hash field [f] is
    read back by [get_filtered_data(f)]: when the strings have distinct
    hashes, the corpus has one entry per string, and in whatever order the
    corpus mapping gives its entries, the generator yields [(hash(s), s)]
    once for every string [s] of the list and nothing else, evaluates nothing
    and ends normally. *)
Theorem imported_texts_are_read_back {I : Interpreter} py_hash base texts field
    tables1 tables2 tables3 h :
  field <> EmptyString ->
  List.NoDup (map (fun t => py_hash (VStr t)) texts) ->
  exists self entries,
    InMemoryOutput_init py_hash base (OData (VList (map VStr texts))) (VStr field)
      tables1 tables2 tables3 h = (Ok tt, self, h)
    /\ corpus_items self = Ok entries
    /\ length entries = length texts
    /\ forall self' entries',
         corpus_items self' = Ok entries' -> Permutation entries entries' ->
         let run := get_filtered_data self' (VStr field) (VStr EmptyString) in
         Permutation (yields run) (map (fun t => VTuple [VInt (py_hash (VStr t)); VStr t]) texts)
         /\ evaluated run = []
         /\ outcome run = None.
Proof.
  intros Hf Hnd.
  set (entries := map (fun item => (identifier py_hash field item, stored field item))
                      (map VStr texts)).
  assert (Hrun : forall self' entries',
             corpus_items self' = Ok entries' -> Permutation entries entries' ->
             let run := get_filtered_data self' (VStr field) (VStr EmptyString) in
             Permutation (yields run)
                         (map (fun t => VTuple [VInt (py_hash (VStr t)); VStr t]) texts)
             /\ evaluated run = [] /\ outcome run = None).
  { intros self' entries' Hc Hperm. unfold get_filtered_data. cbn [truthy negb String.eqb].
    rewrite Hc.
    destruct (every_pair_perm (VStr field) entries entries' Hperm _
                (unfiltered_texts py_hash field texts)) as (pairs' & Hpairs' & Hpp).
    destruct (unfiltered_loop_run (VStr field) entries') as [He Hp].
    destruct (Hp _ Hpairs') as [Hy Ho]. rewrite Hy.
    split; [symmetry; exact Hpp|]. auto. }
  assert (Hlen : length entries = length texts)
    by (unfold entries; rewrite !length_map; reflexivity).
  unfold InMemoryOutput_init.
  destruct texts as [|t texts].
  - cbn [map truthy_obj truthy]. eexists. exists entries. split; [reflexivity|].
    split; [|split; [exact Hlen | exact Hrun]].
    unfold corpus_items. rewrite !lookup_insert_ne by discriminate.
    rewrite lookup_insert_eq. reflexivity.
  - change (truthy_obj (OData (VList (map VStr (t :: texts))))) with true. cbv iota.
    rewrite (import_from_iterable_list py_hash _ (map VStr (t :: texts)) field h []).
    + eexists. exists entries. split; [reflexivity|].
      split; [|split; [exact Hlen | exact Hrun]].
      unfold corpus_items. rewrite !lookup_insert_ne by discriminate.
      rewrite lookup_insert_eq. f_equal.
      rewrite stored_all_distinct; [reflexivity|].
      cbn [map app fst]. rewrite map_map.
      assert (Hid : forall ts, map (fun x => identifier py_hash field (VStr x)) ts
                               = map (fun x => KInt (py_hash (VStr x))) ts).
      { intros ts. apply map_ext. intros x. unfold identifier, wrapped.
        rewrite subscript_own_field. reflexivity. }
      change (identifier py_hash field (VStr t) :: map (fun x => identifier py_hash field (VStr x)) texts)
        with (map (fun x => identifier py_hash field (VStr x)) (t :: texts)).
      rewrite Hid. rewrite <- (map_map (fun t => py_hash (VStr t)) KInt).
      apply NoDup_map_KInt. exact Hnd.
    + exact Hf.
    + apply lookup_insert_eq.
    + apply forallb_forall. intros item Hin. apply in_map_iff in Hin as (x & <- & _).
      unfold importable, wrapped. rewrite subscript_own_field. reflexivity.
Qed.

Lemma imported_texts_are_read_back_witness :
  exists self entries,
    InMemoryOutput_init Scenario.toy_hash ∅ (OData (VList [VStr "cat dog"; VStr "fish"]))
      (VStr "text") (OData VNone) (OData VNone) (OData VNone) ∅ = (Ok tt, self, ∅)
    /\ corpus_items self = Ok entries
    /\ length entries = 2%nat
    /\ Permutation
         (yields (get_filtered_data (I := Scenario.no_extension) self (VStr "text")
                    (VStr EmptyString)))
         [VTuple [VInt 99; VStr "cat dog"]; VTuple [VInt 102; VStr "fish"]].
Proof.
  destruct (imported_texts_are_read_back (I := Scenario.no_extension) Scenario.toy_hash ∅
              ["cat dog"; "fish"]%string "text" (OData VNone) (OData VNone) (OData VNone) ∅)
    as (self & entries & Hinit & Hc & Hlen & Hrun).
  - discriminate.
  - repeat constructor; cbn; intuition discriminate.
  - exists self, entries. split; [exact Hinit|]. split; [exact Hc|]. split; [exact Hlen|].
    exact (proj1 (Hrun self entries Hc (Permutation_refl _))).
Defined.

Lemma GreedyDict_setitem_stores items key value h items' h' :
  GreedyDict_setitem items key value h = (Ok items', h') ->
  items' = dict_set key (materialized value h) items.
Proof.
  unfold GreedyDict_setitem, materialized.
  destruct value as [v | g its | r]; try (intros [= <- <-]; reflexivity).
  destruct (h !! r) as [st|]; [|discriminate].
  destruct (iter_kind st); [|intros [= <- <-]; reflexivity].
  destruct (failure st); [discriminate|]. intros [= <- <-]. reflexivity.
Qed.

(** X6.  Assignment into a [GreedyDict] followed by a lookup: when the
    assignment returns, the key holds the value assigned (a generator having
    been replaced by the list of its values), every other key holds what it
    held before, and the mapping has the keys it had and the key assigned,
    no other. *)
Theorem greedy_dict_set_then_get items key value h items' h' :
  GreedyDict_setitem items key value h = (Ok items', h') ->
  dict_get key items' = Some (materialized value h)
  /\ (forall k, k <> key -> dict_get k items' = dict_get k items)
  /\ (forall k, is_Some (dict_get k items') <-> k = key \/ is_Some (dict_get k items)).
Proof.
  intros Hset. apply GreedyDict_setitem_stores in Hset as ->.
  assert (Hother : forall k, k <> key ->
            dict_get k (dict_set key (materialized value h) items) = dict_get k items)
    by (intros k Hk; apply dict_get_set_ne; congruence).
  split; [apply dict_get_set|]. split; [exact Hother|].
  intros k. destruct (decide (k = key)) as [->|Hne].
  - rewrite dict_get_set. split; eauto.
  - rewrite (Hother k Hne). split; [auto|]. intros [? | ?]; [contradiction | assumption].
Qed.

Lemma greedy_dict_set_then_get_witness :
  GreedyDict_setitem [(KStr "a", OData (VInt 1)); (KStr "b", OData (VInt 2))] (KStr "b")
    (OData (VInt 5)) ∅
  = (Ok [(KStr "a", OData (VInt 1)); (KStr "b", OData (VInt 5))], ∅)
  /\ dict_get (KStr "b") [(KStr "a", OData (VInt 1)); (KStr "b", OData (VInt 5))]
     = Some (OData (VInt 5))
  /\ dict_get (KStr "a") [(KStr "a", OData (VInt 1)); (KStr "b", OData (VInt 5))]
     = dict_get (KStr "a") [(KStr "a", OData (VInt 1)); (KStr "b", OData (VInt 2))].
Proof.
  assert (Hset : GreedyDict_setitem [(KStr "a", OData (VInt 1)); (KStr "b", OData (VInt 2))]
                   (KStr "b") (OData (VInt 5)) ∅
                 = (Ok [(KStr "a", OData (VInt 1)); (KStr "b", OData (VInt 5))], ∅))
    by reflexivity.
  split; [exact Hset|].
  destruct (greedy_dict_set_then_get _ _ _ _ _ _ Hset) as (Hget & Hother & _).
  split; [exact Hget|]. apply Hother. discriminate.
Defined.

(** X7.  On an output built without an iterable, [save] raises
    [AttributeError] before it reaches the base class: [hash_field] is set by
    [import_from_iterable] only (unless the base class sets it). *)
Theorem save_needs_an_import py_hash base iterable field tables1 tables2 tables3 h
    base_save filename :
  truthy_obj iterable = false ->
  base !! "hash_field" = None ->
  exists self,
    InMemoryOutput_init py_hash base iterable field tables1 tables2 tables3 h = (Ok tt, self, h)
    /\ Pipeline.save base_save self filename = Raise AttributeError.
Proof.
  intros Hi Hb. unfold InMemoryOutput_init. rewrite Hi. eexists. split; [reflexivity|].
  match goal with |- Pipeline.save _ ?s _ = _ => set (self := s) end.
  assert (Hcorpus : self !! "corpus" = Some (ODict true []))
    by (unfold self; rewrite !lookup_insert_ne by discriminate; apply lookup_insert_eq).
  assert (Hhash : self !! "hash_field" = None)
    by (unfold self; rewrite !lookup_insert_ne by discriminate; exact Hb).
  unfold Pipeline.save, Pipeline.saved_data, Project.getattr.
  rewrite Hcorpus. cbn [mbind result_bind]. rewrite Hhash. reflexivity.
Qed.

Lemma save_needs_an_import_witness :
  exists self,
    InMemoryOutput_init Scenario.toy_hash ∅ (OData VNone) VNone
      (OData VNone) (OData VNone) (OData VNone) ∅ = (Ok tt, self, ∅)
    /\ Pipeline.save (fun _ _ => Ok (OData VNone)) self "corpus.json" = Raise AttributeError.
Proof.
  apply (save_needs_an_import Scenario.toy_hash ∅ (OData VNone) VNone
           (OData VNone) (OData VNone) (OData VNone) ∅ (fun _ _ => Ok (OData VNone))
           "corpus.json"); reflexivity.
Defined.

(** X27.  Importing from a one-shot iterator consumes it, and stores every
    document the iterator gives before it ends, also when it ends with an
    exception: [import_from_iterable] then raises that exception, and the
    corpus keeps the documents stored until then.  Each document is found
    under its identifier unless a later one has the same identifier, and the
    other identifiers hold what they held. *)
Theorem import_keeps_documents_before_failure py_hash self r st field h corpus :
  field <> EmptyString ->
  self !! "corpus" = Some (ODict true corpus) ->
  h !! r = Some st ->
  forallb (importable field) (pending st) = true ->
  exists corpus',
    import_from_iterable py_hash self (OIter r) (VStr field) h
    = (match failure st with None => Ok tt | Some e => Raise e end,
       <["corpus" := ODict true corpus']> (<["hash_field" := OData (VStr field)]> self),
       <[r := exhausted st]> h)
    /\ (forall before item after,
          pending st = before ++ item :: after ->
          Forall (fun later => identifier py_hash field later <> identifier py_hash field item)
                 after ->
          dict_get (identifier py_hash field item) corpus' = Some (stored field item))
    /\ (forall k,
          Forall (fun item => identifier py_hash field item <> k) (pending st) ->
          dict_get k corpus' = dict_get k corpus).
Proof.
  intros Hf Hc Hr Hall. exists (stored_all py_hash field (pending st) corpus).
  split; [|split].
  - unfold import_from_iterable.
    assert (Ht : truthy (VStr field) = true) by (destruct field; [congruence | reflexivity]).
    rewrite Ht. cbn [supply drained]. rewrite Hr.
    destruct (pending st) as [|item items] eqn:Hp.
    + cbn [stored_all fold_left]. f_equal. f_equal. symmetry. apply insert_id.
      rewrite lookup_insert_ne by discriminate. exact Hc.
    + rewrite lookup_insert_ne by discriminate. rewrite Hc.
      rewrite import_loop_importable by exact Hall. reflexivity.
  - intros before item after -> Hafter. apply stored_all_last. exact Hafter.
  - intros k Hk. apply stored_all_other. exact Hk.
Qed.

Lemma import_keeps_documents_before_failure_witness :
  let broken := {| iter_kind := GeneratorType; pending := [Scenario.doc_a];
                   failure := Some ValueError |} in
  exists self corpus' h,
    import_from_iterable Scenario.toy_hash (<["corpus" := ODict true []]> ∅) (OIter 0%nat)
      (VStr "id") (<[0%nat := broken]> ∅)
    = (Raise ValueError, self, h)
    /\ self !! "corpus" = Some (ODict true corpus')
    /\ dict_get (KInt 97) corpus' = Some (OData (VDict [("_source", Scenario.doc_a)]))
    /\ fst (iterate (OIter 0%nat) h) = Ok [].
Proof.
  cbn zeta.
  destruct (import_keeps_documents_before_failure Scenario.toy_hash
              (<["corpus" := ODict true []]> ∅) 0%nat
              {| iter_kind := GeneratorType; pending := [Scenario.doc_a];
                 failure := Some ValueError |} "id"
              (<[0%nat := {| iter_kind := GeneratorType; pending := [Scenario.doc_a];
                             failure := Some ValueError |}]> ∅) [])
    as (corpus' & Hrun & Hget & _).
  - discriminate.
  - reflexivity.
  - reflexivity.
  - vm_compute. reflexivity.
  - do 3 eexists. split; [exact Hrun|]. split; [apply lookup_insert_eq|]. split.
    + apply (Hget [] Scenario.doc_a [] eq_refl). constructor.
    + vm_compute. reflexivity.
Defined.

End CorpusFacts.

Module ViewFacts.
Import LiteralFacts StoreFacts.

Lemma unfiltered_loop_prefix field entries :
  exists done rest,
    entries = done ++ rest
    /\ every_pair field done = Ok (yields (unfiltered_loop field entries))
    /\ match outcome (unfiltered_loop field entries) with
       | None => rest = []
       | Some e =>
           exists doc_id doc rest',
             rest = (doc_id, doc) :: rest' /\ selected_pair doc_id doc field = Raise e
       end.
Proof.
  induction entries as [|[doc_id doc] entries (done & rest & Heq & Hp & Ho)].
  - exists [], []. repeat split.
  - cbn [unfiltered_loop]. destruct (selected_pair doc_id doc field) as [item|e] eqn:Hsel.
    + exists ((doc_id, doc) :: done), rest. cbn [app every_pair yields outcome].
      rewrite Hsel, Hp, <- Heq. cbn [mbind result_bind]. auto.
    + exists [], ((doc_id, doc) :: entries). cbn [app every_pair yields outcome].
      repeat split. eauto.
Qed.

(** X8.  Without a filter, [get_filtered_data] yields the pairs of the
    corpus entries up to the first entry whose field it cannot read: if there
    is none it ends normally after the last entry, otherwise it ends with the
    exception that reading that entry raises, the later entries unvisited. *)
Theorem unfiltered_view_stops_at_first_failure {I : Interpreter} self field entries :
  corpus_items self = Ok entries ->
  let run := get_filtered_data self field VNone in
  exists done rest,
    entries = done ++ rest
    /\ every_pair field done = Ok (yields run)
    /\ match outcome run with
       | None => rest = []
       | Some e =>
           exists doc_id doc rest',
             rest = (doc_id, doc) :: rest' /\ selected_pair doc_id doc field = Raise e
       end.
Proof.
  intros Hc. unfold get_filtered_data. cbn [truthy negb]. rewrite Hc.
  apply unfiltered_loop_prefix.
Qed.

Lemma unfiltered_view_stops_at_first_failure_witness :
  let run := get_filtered_data (I := Scenario.no_extension)
               (Samples.output_of Samples.gap_entries) (VStr "year") VNone in
  exists done rest,
    Samples.gap_entries = done ++ rest
    /\ every_pair (VStr "year") done = Ok (yields run)
    /\ match outcome run with
       | None => rest = []
       | Some e =>
           exists doc_id doc rest',
             rest = (doc_id, doc) :: rest' /\ selected_pair doc_id doc (VStr "year") = Raise e
       end.
Proof.
  apply (unfiltered_view_stops_at_first_failure (I := Scenario.no_extension)
           (Samples.output_of Samples.gap_entries)
           (VStr "year") Samples.gap_entries).
  vm_compute. reflexivity.
Defined.

Lemma loop_sublist {I : Interpreter} self field filter entries :
  (exists chosen, sublist chosen entries
      /\ every_pair field chosen = Ok (yields (unfiltered_loop field entries)))
  /\ (exists chosen, sublist chosen entries
      /\ every_pair field chosen = Ok (yields (filtered_loop self field filter entries))).
Proof.
  induction entries as [|[doc_id doc] entries [(c1 & Hs1 & Hp1) (c2 & Hs2 & Hp2)]].
  - split; exists []; split; constructor.
  - split.
    + cbn [unfiltered_loop]. destruct (selected_pair doc_id doc field) as [item|e] eqn:Hsel.
      * exists ((doc_id, doc) :: c1). split; [constructor; exact Hs1|].
        cbn [every_pair yields]. rewrite Hsel, Hp1. reflexivity.
      * exists []. split; [apply sublist_nil_l | reflexivity].
    + cbn [filtered_loop]. destruct (filter_text filter doc) as [text|e];
        [|exists []; split; [apply sublist_nil_l | reflexivity]].
      cbn [yields]. destruct (eval_text _ text) as [verdict|e];
        [|exists []; split; [apply sublist_nil_l | reflexivity]].
      destruct verdict.
      * destruct (selected_pair doc_id doc field) as [item|e] eqn:Hsel.
        -- exists ((doc_id, doc) :: c2). split; [constructor; exact Hs2|].
           cbn [every_pair yields]. rewrite Hsel, Hp2. reflexivity.
        -- exists []. split; [apply sublist_nil_l | reflexivity].
      * exists c2. split; [constructor; exact Hs2 | exact Hp2].
Qed.

Lemma every_pair_length field entries pairs :
  every_pair field entries = Ok pairs -> length pairs = length entries.
Proof.
  revert pairs. induction entries as [|[doc_id doc] entries IH]; intros pairs.
  - intros [= <-]. reflexivity.
  - cbn [every_pair]. destruct (selected_pair doc_id doc field); [|discriminate].
    cbn [mbind result_bind]. destruct (every_pair field entries) as [items|]; [|discriminate].
    intros [= <-]. cbn [length]. f_equal. apply IH. reflexivity.
Qed.

(** X9.  Whatever the filter, and however the generator ends,
    [get_filtered_data] visits the corpus once, in its iteration order: the
    pairs it yields are the [(doc_id, doc["_source"][field_to_get])] pairs of
    a subsequence of the corpus entries, so no entry is yielded twice, none
    out of order, and there are at most as many pairs as entries. *)
Theorem view_follows_corpus_order {I : Interpreter} self field filter entries :
  corpus_items self = Ok entries ->
  let run := get_filtered_data self field filter in
  exists chosen,
    sublist chosen entries
    /\ every_pair field chosen = Ok (yields run)
    /\ (length (yields run) <= length entries)%nat.
Proof.
  intros Hc. unfold get_filtered_data. rewrite Hc.
  destruct (loop_sublist self field filter entries) as [(c1 & Hs1 & Hp1) (c2 & Hs2 & Hp2)].
  destruct (negb (truthy filter)); [exists c1 | exists c2]; (split; [assumption|]);
    (split; [assumption|]).
  - rewrite (every_pair_length _ _ _ Hp1). apply sublist_length. exact Hs1.
  - rewrite (every_pair_length _ _ _ Hp2). apply sublist_length. exact Hs2.
Qed.

Lemma view_follows_corpus_order_witness :
  exists chosen,
    sublist chosen
      [(KInt 97, OData (VDict [("_source", Scenario.doc_a)]));
       (KInt 98, OData (VDict [("_source", Scenario.doc_b)]))]
    /\ every_pair (VStr "text") chosen
       = Ok (yields (get_filtered_data (I := Scenario.no_extension) Scenario.loaded_output
                       (VStr "text") (VStr "{}['_source']['year'] > 2005"))).
Proof.
  destruct (view_follows_corpus_order (I := Scenario.no_extension) Scenario.loaded_output
              (VStr "text") (VStr "{}['_source']['year'] > 2005") _ eq_refl)
    as (chosen & Hs & Hp & _).
  exists chosen. split; [exact Hs | exact Hp].
Defined.

(** *** Years that [int] converts *)









End ViewFacts.

Module PipelineFacts.
Import Fingerprint Project Pipeline Observed StoreFacts CorpusFacts ProjectFacts.

Lemma obj_setitem_stores table fingerprint value h table' h' :
  obj_setitem table (VStr fingerprint) value h = (Ok table', h') ->
  obj_subscript table' (VStr fingerprint) = Ok (kept table value h).
Proof.
  unfold obj_setitem.
  destruct table as [[]|[] items|]; try discriminate; cbn [key_of].
  - destruct (GreedyDict_setitem items (KStr fingerprint) value h) as [[items'|] h1] eqn:Hset;
      [|discriminate].
    intros [= <- <-]. apply GreedyDict_setitem_stores in Hset as ->.
    cbn [obj_subscript key_of mbind result_bind kept]. rewrite dict_get_set. reflexivity.
  - intros [= <- <-]. cbn [obj_subscript key_of mbind result_bind kept].
    rewrite dict_get_set. reflexivity.
Qed.

(** What [store_and_select] leaves behind. *)
Lemma store_and_select_result table pointer fingerprint value w :
  match store_and_select table pointer fingerprint value w with
  | (Ok _, w') =>
      self w' = <[pointer := OData (VStr fingerprint)]> (self w)
      /\ exists artifacts artifacts',
           output w !! table = Some artifacts
           /\ output w' = <[table := artifacts']> (output w)
           /\ obj_subscript artifacts' (VStr fingerprint) = Ok (kept artifacts value (heap w))
  | (Raise _, w') => self w' = self w /\ output w' = output w
  end.
Proof.
  unfold store_and_select, getattr.
  destruct (output w !! table) as [artifacts|] eqn:Ht; [|auto].
  destruct (obj_setitem artifacts (VStr fingerprint) value (heap w)) as [[artifacts'|e] h'] eqn:Hset;
    [|auto].
  cbn [self output]. split; [reflexivity|]. exists artifacts, artifacts'.
  split; [reflexivity|]. split; [reflexivity|]. eapply obj_setitem_stores. exact Hset.
Qed.

Lemma store_then_read table pointer fingerprint value w w' :
  store_and_select table pointer fingerprint value w = (Ok tt, w') ->
  exists artifacts,
    output w !! table = Some artifacts
    /\ selected_data table pointer w' = Ok (kept artifacts value (heap w)).
Proof.
  intros Hs. pose proof (store_and_select_result table pointer fingerprint value w) as H.
  rewrite Hs in H. destruct H as (Hself & artifacts & artifacts' & Ht & Hout & Hget).
  exists artifacts. split; [exact Ht|].
  unfold selected_data, getattr. rewrite Hout, Hself, !lookup_insert_eq.
  cbn [mbind result_bind]. exact Hget.
Qed.

(** X12.  [tokenize] is all or nothing on the project and on the tables.
    When it returns, it has called the tokenizer on the generator that the
    property [filtered_corpus] gives, [self._tokenizer_id] is the fingerprint
    ["tk_" + method + "_" + parameters], what the tokenizer returned can be
    read under that fingerprint in [self.output.token_data], kept as that
    table keeps it (a [GreedyDict] holds the list of the values of a
    generator), and no other attribute of the project and no other attribute
    of the output has changed.  When it raises, whether in the corpus view,
    in the tokenizer or while the artifact is materialized, the project and
    the output have the attributes they had. *)
Theorem tokenize_is_all_or_nothing {I : Interpreter} tokenizer method kwargs w :
  match tokenize tokenizer method kwargs w with
  | (Ok _, w') =>
      self w' !! "_tokenizer_id"
        = Some (OData (VStr (tokenize_parameter_string method kwargs)))
      /\ (exists corpus w1 tokenized h table,
            filtered_corpus w = (Ok corpus, w1)
            /\ tokenizer corpus method kwargs (heap w1) = (Ok tokenized, h)
            /\ output w !! "token_data" = Some table
            /\ selected_data "token_data" "_tokenizer_id" w' = Ok (kept table tokenized h))
      /\ (forall name, name <> "_tokenizer_id" -> self w' !! name = self w !! name)
      /\ (forall name, name <> "token_data" -> output w' !! name = output w !! name)
  | (Raise _, w') => self w' = self w /\ output w' = output w
  end.
Proof.
  unfold tokenize.
  destruct (filtered_corpus w) as [[corpus|e] w1] eqn:Hcorpus.
  2:{ unfold filtered_corpus in Hcorpus.
      destruct (getattr (self w) "corpus_filter") as [[corpus_filter| |]|].
      - destruct (call_generator _ _). discriminate.
      - injection Hcorpus as _ <-. auto.
      - injection Hcorpus as _ <-. auto.
      - injection Hcorpus as _ <-. auto. }
  assert (Hw1 : self w1 = self w /\ output w1 = output w).
  { unfold filtered_corpus in Hcorpus.
    destruct (getattr (self w) "corpus_filter") as [[corpus_filter| |]|]; try discriminate.
    destruct (call_generator _ _). injection Hcorpus as _ <-. auto. }
  destruct Hw1 as [Hs1 Ho1].
  destruct (tokenizer corpus method kwargs (heap w1)) as [[tokenized|e] h] eqn:Htok;
    [|cbn [self output with_heap]; auto].
  match goal with |- context [store_and_select ?t ?p ?f ?v ?w0] =>
    pose proof (store_and_select_result t p f v w0) as H;
    pose proof (store_then_read t p f v w0) as Hread;
    destruct (store_and_select t p f v w0) as [[[]|e] w']
  end; [|cbn [self output with_heap] in H; rewrite <- Hs1, <- Ho1; exact H].
  destruct H as (Hself & artifacts & artifacts' & Ht & Hout & _).
  destruct (Hread w' eq_refl) as (table & Ht' & Hget).
  cbn [self output heap with_heap] in *. rewrite Hself, Hout, Hs1, Ho1.
  split; [apply lookup_insert_eq|]. split.
  - exists corpus, w1, tokenized, h, table. rewrite Ho1 in Ht'. auto.
  - split; intros name Hne; apply lookup_insert_ne; congruence.
Qed.

(** X13.  [run_model] and the property [model_output] agree: when
    [run_model] returns, it has called the model on the selected vectorized
    data, [self._model_id] is the fingerprint [model_name + "_" + parameters],
    and [model_output] is what the model returned, kept as
    [self.output.model_data] keeps it (a [GreedyDict] holds the list of the
    values of a generator).  When [run_model] raises, the project and the
    output have the attributes they had. *)
Theorem run_model_result_is_selected model model_name kwargs w :
  match run_model model model_name kwargs w with
  | (Ok _, w') =>
      self w' !! "_model_id" = Some (OData (VStr (stage_parameter_string model_name kwargs)))
      /\ exists vectorized value h table,
           vectorized_data w = Ok vectorized
           /\ model vectorized model_name kwargs (heap w) = (Ok value, h)
           /\ output w !! "model_data" = Some table
           /\ model_output w' = Ok (kept table value h)
  | (Raise _, w') => self w' = self w /\ output w' = output w
  end.
Proof.
  unfold run_model.
  destruct (vectorized_data w) as [vectorized|e] eqn:Hv; [|auto].
  destruct (model vectorized model_name kwargs (heap w)) as [[value|e] h] eqn:Hm; [|auto].
  match goal with |- context [store_and_select ?t ?p ?f ?v ?w0] =>
    pose proof (store_and_select_result t p f v w0) as H;
    pose proof (store_then_read t p f v w0) as Hread;
    destruct (store_and_select t p f v w0) as [[[]|e] w']
  end; [|exact H].
  destruct H as (Hself & _). destruct (Hread w' eq_refl) as (table & Ht & Hget).
  cbn [self output heap with_heap] in *. rewrite Hself.
  split; [apply lookup_insert_eq|].
  exists vectorized, value, h, table. auto.
Qed.

(** X14.  [TopikProject.vectorize] never succeeds: whatever has been
    registered, and whatever the method, the arguments and the project, it
    raises, and the project and the output stay as they were, so that no
    vectorized artifact is ever stored and [self._vectorizer_id] is never
    set by it.  When tokenized data is selected, the exception is the
    [KeyError] of the lookup in the new registry instance. *)
Theorem project_vectorize_always_raises method kwargs w p :
  exists e p',
    vectorize method kwargs w p = (Raise e, w, p')
    /\ (forall tokenized, tokenized_data w = Ok tokenized -> e = KeyError).
Proof.
  unfold vectorize. destruct (tokenized_data w) as [tokenized|e] eqn:Ht.
  - pose proof (RegistryFacts.vectorize_finds_nothing tokenized method kwargs p) as Hv.
    destruct (Registry.vectorize tokenized method kwargs p) as [[v|e] p']; cbn [fst] in Hv;
      [discriminate|].
    injection Hv as ->. exists KeyError, p'. auto.
  - exists e, p. split; [reflexivity | discriminate].
Qed.





(** X17.  [select_vectorized_data] and [select_model_data] reject an
    identifier that is not a key of their table with [ValueError], and leave
    the project, the output and the iterators as they were. *)
Theorem select_rejects_unknown_id id k w gv vectorized gm models :
  key_of id = Ok k ->
  output w !! "vectorized_data" = Some (ODict gv vectorized) ->
  output w !! "model_data" = Some (ODict gm models) ->
  dict_get k vectorized = None ->
  dict_get k models = None ->
  select_vectorized_data id w = (Raise ValueError, w)
  /\ select_model_data id w = (Raise ValueError, w).
Proof.
  intros Hk Hv Hm Hkv Hkm.
  unfold select_vectorized_data, select_model_data, select_in, getattr.
  rewrite Hv, Hm. cbn [mbind result_bind obj_contains]. rewrite Hk. cbn [mbind result_bind].
  rewrite Hkv, Hkm.
  rewrite bool_decide_eq_false_2 by (intros [? ?]; discriminate). auto.
Qed.

Lemma select_rejects_unknown_id_witness :
  select_vectorized_data (VStr "c") Scenario.vectorized_project
  = (Raise ValueError, Scenario.vectorized_project)
  /\ select_model_data (VStr "c") Scenario.vectorized_project
     = (Raise ValueError, Scenario.vectorized_project).
Proof.
  apply (select_rejects_unknown_id (VStr "c") (KStr "c") Scenario.vectorized_project
           true [(KStr "a", OData (VList [VInt 1])); (KStr "b", OData (VList [VInt 2]))]
           true []); reflexivity.
Defined.

(** X18.  Right after [__init__] nothing is selected: the three selections
    are [None], and each data property raises [KeyError] as long as its
    table has no entry under [None]; for a new output object, whose tables
    are empty, that is every property. *)
Theorem new_project_has_no_data out h g1 tokenized g2 vectorized g3 models :
  out !! "tokenized_data" = Some (ODict g1 tokenized) ->
  out !! "vectorized_data" = Some (ODict g2 vectorized) ->
  out !! "model_data" = Some (ODict g3 models) ->
  dict_get KNone tokenized = None ->
  dict_get KNone vectorized = None ->
  dict_get KNone models = None ->
  let w := {| self := TopikProject_init; output := out; heap := h |} in
  tokenized_data w = Raise KeyError
  /\ vectorized_data w = Raise KeyError
  /\ model_output w = Raise KeyError.
Proof.
  intros H1 H2 H3 K1 K2 K3 w.
  unfold tokenized_data, vectorized_data, model_output, selected_data, getattr.
  cbn [output self w]. rewrite H1, H2, H3. cbn [mbind result_bind].
  assert (Ht : TopikProject_init !! "_tokenizer_id" = Some (OData VNone)) by reflexivity.
  assert (Hv : TopikProject_init !! "_vectorizer_id" = Some (OData VNone)) by reflexivity.
  assert (Hm : TopikProject_init !! "_model_id" = Some (OData VNone)) by reflexivity.
  rewrite Ht, Hv, Hm.
  cbn [mbind result_bind obj_subscript key_of]. rewrite K1, K2, K3. auto.
Qed.

Lemma new_project_has_no_data_witness :
  tokenized_data (Scenario.fresh_project Scenario.scenario_corpus) = Raise KeyError
  /\ vectorized_data (Scenario.fresh_project Scenario.scenario_corpus) = Raise KeyError
  /\ model_output (Scenario.fresh_project Scenario.scenario_corpus) = Raise KeyError.
Proof.
  apply (new_project_has_no_data (Scenario.with_tables Scenario.scenario_corpus) ∅
           true [] true
           [(KStr "a", OData (VList [VInt 1])); (KStr "b", OData (VList [VInt 2]))]
           true []); reflexivity.
Defined.

End PipelineFacts.

Module BorgFacts.
Import Registry.

(** X19.  Every [VectorizerRegistry()] is a new, empty dictionary: looking
    up any name in it raises [KeyError], whatever the other instances hold;
    the entries of the other instances are as they were; and the new instance
    reads every attribute exactly as the others do, the attribute dictionary
    being the shared one. *)
Theorem new_registry_instance_is_empty p :
  let r := fst (VectorizerRegistry p) in
  let p' := snd (VectorizerRegistry p) in
  contents p !! r = None
  /\ (forall name, instance_getitem r name p' = Raise KeyError)
  /\ (forall r0 name, r0 <> r -> instance_getitem r0 name p' = instance_getitem r0 name p)
  /\ (forall r0 name, instance_getattr r name p' = instance_getattr r0 name p)
  /\ (forall r0 name value,
        instance_getattr r name (instance_setattr r0 name value p') = Ok value).
Proof.
  cbn zeta. unfold VectorizerRegistry. cbn [fst snd].
  split; [apply not_elem_of_dom, is_fresh|]. split; [|split; [|split]].
  - intros name. unfold instance_getitem. cbn [contents].
    rewrite lookup_insert_eq, lookup_empty. reflexivity.
  - intros r0 name Hne. unfold instance_getitem. cbn [contents].
    rewrite lookup_insert_ne by congruence. reflexivity.
  - reflexivity.
  - intros r0 name value. apply RegistryFacts.attributes_are_shared.
Qed.

End BorgFacts.

Module EntitiesFacts.
Import Fingerprint Entities.

Section Counting.

Variable noun_phrases : string -> list string.
Variable _simple_document : string -> PyVal -> PyVal -> list string.

Lemma occurrences_nonneg np phrases : 0 <= occurrences np phrases.
Proof. induction phrases as [|p rest IH]; cbn; [lia|]. destruct (String.eqb p np); lia. Qed.

Lemma occurrences_app np l1 l2 :
  occurrences np (l1 ++ l2) = occurrences np l1 + occurrences np l2.
Proof. induction l1 as [|p l1 IH]; cbn; [reflexivity|]. rewrite IH. lia. Qed.

(** The counts after a run of the inner loop. *)
Lemma count_phrases phrases counts np :
  fold_left count_phrase phrases counts !! np
  = match counts !! np with
    | Some c => Some (c + occurrences np phrases)
    | None => if occurrences np phrases =? 0 then None else Some (occurrences np phrases)
    end.
Proof.
  revert counts. induction phrases as [|p rest IH]; intros counts.
  - cbn. destruct (counts !! np); [f_equal; lia | reflexivity].
  - cbn [fold_left occurrences]. rewrite IH. unfold count_phrase.
    pose proof (occurrences_nonneg np rest) as Hpos.
    destruct (String.eqb_spec p np) as [->|Hne].
    + rewrite lookup_insert_eq. destruct (counts !! np) as [c|]; cbn [default from_option];
        unfold id.
      * f_equal. lia.
      * destruct (1 + occurrences np rest =? 0) eqn:Hz; [lia|]. f_equal.
    + rewrite lookup_insert_ne by exact Hne.
      destruct (counts !! np); [f_equal; lia | reflexivity].
Qed.

Lemma fold_count_app phrases phrases' counts :
  fold_left count_phrase (phrases ++ phrases') counts
  = fold_left count_phrase phrases' (fold_left count_phrase phrases counts).
Proof. apply fold_left_app. Qed.

Lemma collect_loop_small docs n counts :
  0 <= n -> n + Z.of_nat (length docs) <= 1000 ->
  collect_loop noun_phrases docs n counts
  = Ok (fold_left count_phrase (concat (map noun_phrases docs)) counts).
Proof.
  revert n counts. induction docs as [|doc docs IH]; intros n counts Hn Hlen; [reflexivity|].
  cbn [collect_loop length map concat] in *.
  assert (Hcheck : (0 <? n) && (n mod 1000 =? 0) = false).
  { destruct (0 <? n) eqn:H0; [|reflexivity]. cbn [andb].
    rewrite Z.mod_small by lia. lia. }
  rewrite Hcheck, IH by lia. rewrite fold_count_app. reflexivity.
Qed.

Lemma collect_loop_large docs n counts :
  0 <= n <= 1000 -> 1000 < n + Z.of_nat (length docs) ->
  collect_loop noun_phrases docs n counts = Raise NameError.
Proof.
  revert n counts. induction docs as [|doc docs IH]; intros n counts Hn Hlen;
    cbn [collect_loop length] in *; [lia|].
  destruct (Z.eq_dec n 1000) as [->|Hne]; [reflexivity|].
  assert (Hcheck : (0 <? n) && (n mod 1000 =? 0) = false).
  { destruct (0 <? n) eqn:H0; [|reflexivity]. cbn [andb].
    rewrite Z.mod_small by lia. lia. }
  rewrite Hcheck. apply IH; lia.
Qed.

Lemma collected_members (counts : gmap string Z) freq_min freq_max (np : string) :
  np ∈@{gset string} dom (filter (fun kv : string * Z => freq_min <= snd kv <= freq_max) counts)
  <-> exists c, counts !! np = Some c /\ freq_min <= c <= freq_max.
Proof.
  rewrite elem_of_dom. unfold is_Some. split.
  - intros (c & Hc). apply map_lookup_filter_Some in Hc as [Hc Hp]. eauto.
  - intros (c & Hc & Hp). exists c. apply map_lookup_filter_Some. auto.
Qed.

(** X20.  On a collection of at most 1000 documents, [_collect_entities]
    returns exactly the noun phrases whose number of occurrences, summed over
    the documents, is at least [freq_min] and at most [freq_max]; a phrase
    that never occurs is not returned even when [freq_min] is zero or less,
    and nothing is returned when [freq_max < freq_min]. *)
Theorem collect_entities_by_frequency docs freq_min freq_max :
  (length docs <= 1000)%nat ->
  exists found,
    _collect_entities noun_phrases docs freq_min freq_max = Ok found
    /\ (forall np,
          np ∈ found
          <-> 0 < occurrences np (concat (map noun_phrases docs))
              /\ freq_min <= occurrences np (concat (map noun_phrases docs)) <= freq_max)
    /\ (freq_max < freq_min -> found = ∅).
Proof.
  intros Hlen. unfold _collect_entities.
  rewrite collect_loop_small by lia. cbn [mbind result_bind].
  eexists. split; [reflexivity|].
  assert (Hmem : forall np,
             np ∈ dom (filter (fun kv : string * Z => freq_min <= snd kv <= freq_max)
                         (fold_left count_phrase (concat (map noun_phrases docs)) ∅))
             <-> 0 < occurrences np (concat (map noun_phrases docs))
                 /\ freq_min <= occurrences np (concat (map noun_phrases docs)) <= freq_max).
  { intros np. rewrite collected_members. rewrite count_phrases, lookup_empty.
    pose proof (occurrences_nonneg np (concat (map noun_phrases docs))) as Hpos.
    destruct (occurrences np (concat (map noun_phrases docs)) =? 0) eqn:Hz.
    - split; [intros (c & [=] & _) | intros [H _]; lia].
    - split.
      + intros (c & [= <-] & Hr). split; [lia | exact Hr].
      + intros [_ Hr]. eauto. }
  split; [exact Hmem|].
  intros Hlt. apply set_eq. intros np. rewrite Hmem. split; [lia | set_solver].
Qed.

(** X21.  On a collection of more than 1000 documents [_collect_entities]
    raises [NameError]: at the thousandth document it calls [logging.info],
    and the module does not import [logging]. *)
Theorem collect_entities_fails_on_large_collections docs freq_min freq_max :
  (1000 < length docs)%nat ->
  _collect_entities noun_phrases docs freq_min freq_max = Raise NameError.
Proof.
  intros Hlen. unfold _collect_entities. rewrite collect_loop_large by lia. reflexivity.
Qed.

Lemma joined_token_nonempty np min_length stopwords :
  Forall (fun token => token <> EmptyString)
         (joined_token _simple_document np min_length stopwords).
Proof.
  unfold joined_token.
  destruct (String.eqb_spec (join_underscore (_simple_document np min_length stopwords))
                            EmptyString) as [|Hne]; repeat constructor. exact Hne.
Qed.

Lemma entities_loop_tokens text found min_length stopwords token :
  In token (_tokenize_entities_document noun_phrases _simple_document text found
              min_length stopwords) ->
  token <> EmptyString
  /\ exists np, In np (noun_phrases text) /\ np ∈ found
       /\ token = join_underscore (_simple_document np min_length stopwords).
Proof.
  unfold _tokenize_entities_document.
  induction (noun_phrases text) as [|np nps IH]; [intros []|].
  intros Hin. apply in_app_or in Hin as [Hin|Hin].
  - destruct (bool_decide (np ∈ found)) eqn:Hnp; [|destruct Hin].
    apply bool_decide_eq_true in Hnp. unfold joined_token in Hin.
    destruct (String.eqb_spec (join_underscore (_simple_document np min_length stopwords))
                              EmptyString) as [|Hne]; [destruct Hin|].
    destruct Hin as [<- | []]. split; [exact Hne|]. exists np. cbn. auto.
  - destruct (IH Hin) as (Hne & np' & Hin' & Hf & Heq). split; [exact Hne|].
    exists np'. cbn. auto.
Qed.

(** X22.  Every token [_tokenize_entities_document] returns is non-empty
    and is the words of one noun phrase of the text that is among the
    entities, joined by underscores; with no entities it returns no token. *)
Theorem entity_tokens_are_joined_phrases text found min_length stopwords :
  (forall token,
     In token (_tokenize_entities_document noun_phrases _simple_document text found
                 min_length stopwords) ->
     token <> EmptyString
     /\ exists np, In np (noun_phrases text) /\ np ∈ found
          /\ token = join_underscore (_simple_document np min_length stopwords))
  /\ _tokenize_entities_document noun_phrases _simple_document text ∅ min_length stopwords = [].
Proof.
  split; [intros token; apply entities_loop_tokens|].
  unfold _tokenize_entities_document.
  induction (noun_phrases text) as [|np nps IH]; [reflexivity|].
  rewrite IH. rewrite bool_decide_eq_false_2 by set_solver. reflexivity.
Qed.

Lemma mixed_loop_sublist text found min_length stopwords :
  sublist (_tokenize_entities_document noun_phrases _simple_document text found
             min_length stopwords)
          (_tokenize_mixed_document noun_phrases _simple_document text found
             min_length stopwords)
  /\ (Forall (fun np => np ∈ found) (noun_phrases text) ->
      _tokenize_mixed_document noun_phrases _simple_document text found min_length stopwords
      = _tokenize_entities_document noun_phrases _simple_document text found
          min_length stopwords).
Proof.
  unfold _tokenize_entities_document, _tokenize_mixed_document.
  induction (noun_phrases text) as [|np nps [IHs IHe]]; [split; [constructor | reflexivity]|].
  split.
  - apply sublist_app; [|exact IHs].
    destruct (bool_decide (np ∈ found)); [|apply sublist_nil_l].
    rewrite andb_false_r. reflexivity.
  - intros Hall. inversion Hall as [|? ? Hnp Hrest]; subst.
    rewrite IHe by exact Hrest. rewrite bool_decide_eq_true_2 by exact Hnp.
    rewrite andb_false_r. reflexivity.
Qed.

(** X23.  The tokens [_tokenize_entities_document] returns for a text are a
    subsequence of the tokens [_tokenize_mixed_document] returns for it: the
    mixed tokenizer adds tokens and drops none, and keeps the order.  When
    every noun phrase of the text is among the entities the two return the
    same tokens. *)
Theorem mixed_tokens_extend_entity_tokens text found min_length stopwords :
  sublist (_tokenize_entities_document noun_phrases _simple_document text found
             min_length stopwords)
          (_tokenize_mixed_document noun_phrases _simple_document text found
             min_length stopwords)
  /\ (Forall (fun np => np ∈ found) (noun_phrases text) ->
      _tokenize_mixed_document noun_phrases _simple_document text found min_length stopwords
      = _tokenize_entities_document noun_phrases _simple_document text found
          min_length stopwords).
Proof. apply mixed_loop_sublist. Qed.

(** X24.  The tokenizers [entities] and [mixed] collect the entities before
    they yield anything.  On a corpus object without the method
    [get_generator_without_id] (a list of strings, a generator) both raise
    [AttributeError], and on one whose method produces more than 1000
    documents both raise [NameError], in either case without a token list
    yielded.  Otherwise both end normally with one token list for every
    document the corpus iterates over, in order, the list of [entities]
    being a subsequence of the list of [mixed]. *)
Theorem tokenizers_collect_first corpus min_length freq_min freq_max stopwords :
  let by_entities :=
    entities noun_phrases _simple_document corpus min_length freq_min freq_max stopwords in
  let by_mixed :=
    mixed noun_phrases _simple_document corpus min_length freq_min freq_max stopwords in
  match get_generator_without_id corpus with
  | None => by_entities = Raise AttributeError /\ by_mixed = Raise AttributeError
  | Some docs =>
      if (1000 <? Z.of_nat (length docs)) then
        by_entities = Raise NameError /\ by_mixed = Raise NameError
      else
        exists entity_lists mixed_lists,
          by_entities = Ok entity_lists /\ by_mixed = Ok mixed_lists
          /\ length entity_lists = length (iterated corpus)
          /\ Forall2 sublist entity_lists mixed_lists
  end.
Proof.
  cbn zeta. unfold entities, mixed, collected.
  destruct (get_generator_without_id corpus) as [docs|]; [|auto].
  unfold _collect_entities.
  destruct (1000 <? Z.of_nat (length docs)) eqn:Hlen.
  - rewrite collect_loop_large by lia. auto.
  - rewrite collect_loop_small by lia. cbn [mbind result_bind].
    eexists _, _. split; [reflexivity|]. split; [reflexivity|].
    split; [apply length_map|].
    induction (iterated corpus) as [|doc docs' IH]; cbn [map]; constructor; [|exact IH].
    apply mixed_loop_sublist.
Qed.

End Counting.

Lemma collect_entities_by_frequency_witness :
  exists found,
    _collect_entities sample_phrases ["cat,dog"; "cat"]%string 2 10000 = Ok found
    /\ "cat"%string ∈ found
    /\ "dog"%string ∉ found.
Proof.
  destruct (collect_entities_by_frequency sample_phrases ["cat,dog"; "cat"]%string 2 10000)
    as (found & Hrun & Hmem & _).
  - cbn. lia.
  - exists found. split; [exact Hrun|]. rewrite !Hmem. cbn. lia.
Defined.

Lemma collect_entities_fails_on_large_collections_witness :
  _collect_entities sample_phrases (repeat "cat"%string 1001) 2 10000 = Raise NameError.
Proof.
  apply collect_entities_fails_on_large_collections.
  rewrite repeat_length. lia.
Defined.

End EntitiesFacts.

Module FilterFacts.
Import LiteralFacts StoreFacts.

(** X25.  A filter that is true but is not a string (a number, a
    dictionary, a list) has no [format] method: on a corpus that is not
    empty the generator ends with [AttributeError] at its first entry,
    nothing evaluated and nothing yielded; on an empty corpus it ends
    normally, the filter never looked at. *)
Theorem non_string_filter_is_rejected {I : Interpreter} self field filter entries :
  corpus_items self = Ok entries ->
  truthy filter = true ->
  (forall template, filter <> VStr template) ->
  let run := get_filtered_data self field filter in
  yields run = [] /\ evaluated run = []
  /\ outcome run = match entries with [] => None | _ => Some AttributeError end.
Proof.
  intros Hc Ht Hns. unfold get_filtered_data. rewrite Hc, Ht. cbn [negb].
  destruct entries as [|[doc_id doc] rest]; [auto|].
  cbn [filtered_loop]. unfold filter_text.
  destruct filter; try (cbn; auto; fail). exfalso. eapply Hns. reflexivity.
Qed.

Lemma non_string_filter_is_rejected_witness :
  let run := get_filtered_data (I := Scenario.no_extension) Scenario.loaded_output (VStr "text")
               (VDict [("year", VInt 2000)]) in
  yields run = [] /\ evaluated run = [] /\ outcome run = Some AttributeError.
Proof.
  apply (non_string_filter_is_rejected (I := Scenario.no_extension)
           Scenario.loaded_output (VStr "text")
           (VDict [("year", VInt 2000)])
           [(KInt 97, OData (VDict [("_source", Scenario.doc_a)]));
            (KInt 98, OData (VDict [("_source", Scenario.doc_b)]))]).
  - vm_compute. reflexivity.
  - reflexivity.
  - discriminate.
Defined.





End FilterFacts.
